(** * zvt trader: slot, selectors comparator and signal emission

    A shallow embedding of [src/zvt/trader/trader.py].  Python objects that
    are mutated in place (the level/targets dictionary, the listener list)
    are threaded explicitly; Python [float]s are IEEE binary64 numbers and
    are embedded as Rocq's primitive floats; Python [set]s of security ids
    are finite sets of strings, dictionaries are finite maps. *)

From Stdlib Require Import ZArith Floats.PrimFloat Floats.FloatOps Floats.FloatAxioms
  Floats.SpecFloat Uint63.
From stdpp Require Import gmap strings list sorting.

Open Scope Z_scope.

(** ** Values shared by the classes of the module *)

(** [pd.Timestamp] values, as a count on the time line. *)
Definition timestamp := Z.

(** [zvt.domain.TradingLevel] is an [Enum] declared outside this file; the
    code here only uses a member's [value] (as dictionary key) and equality
    between members.  A member of an [Enum] is identified by its value. *)
Record TradingLevel := mkTradingLevel { value : string }.

#[global] Instance TradingLevel_eq_dec : EqDecision TradingLevel.
Proof. solve_decision. Defined.

(** A row of the data frame a selector returns: only the two columns the
    trader reads. *)
Record row := mkRow { security_id : string; score : float }.

Definition DataFrame := list row.

(** [df.empty] *)
Definition empty_df (df : DataFrame) : bool :=
  match df with [] => true | _ => false end.

(** [df['security_id'].to_list()] *)
Definition security_ids (df : DataFrame) : list string := security_id <$> df.

(** [zvt.selectors.selector.TargetSelector], through the two members the
    trader uses. *)
Record TargetSelector := mkSelector {
  level : TradingLevel;
  get_targets : timestamp → DataFrame
}.

(** ** The value stored for a level

    [Trader.run] stores either [set(df['security_id'].to_list())] or, when
    the decision is empty, the empty dictionary literal [{}]. *)
Inductive py_targets :=
| PySet (s : gset string)
| PyEmptyDict.

(** Python truth value of a stored entry ([None] when the key is absent). *)
Definition truthy (o : option py_targets) : bool :=
  match o with
  | Some (PySet s) => negb (bool_decide (s = ∅))
  | Some PyEmptyDict => false
  | None => false
  end.

(** Truth value of a [set]. *)
Definition truthy_set (s : gset string) : bool := negb (bool_decide (s = ∅)).

(** Errors the code of this file raises. *)
Inductive exn := AssertionError | NotImplementedError.

(** ** Sorting rows: [df.sort_values(by=['score', 'security_id'])]

    Ascending, score first and security id second, with pandas' default
    [na_position='last'] for a NaN score.  Strings compare as Python's do,
    code unit by code unit. *)
Definition score_compare (a b : float) : comparison :=
  match PrimFloat.is_nan a, PrimFloat.is_nan b with
  | true, true => Eq
  | true, false => Gt
  | false, true => Lt
  | false, false =>
      match PrimFloat.compare a b with
      | FLt => Lt
      | FGt => Gt
      | FEq | FNotComparable => Eq
      end
  end.

Definition row_leb (r1 r2 : row) : bool :=
  match score_compare (score r1) (score r2) with
  | Lt => true
  | Gt => false
  | Eq => String.leb (security_id r1) (security_id r2)
  end.

Definition row_le (r1 r2 : row) : Prop := row_leb r1 r2 = true.

#[global] Instance row_le_dec : RelDecision row_le.
Proof. intros r1 r2. unfold row_le. apply _. Defined.

Definition sort_values (df : DataFrame) : DataFrame := merge_sort row_le df.

(** [df.iloc[list(range(n)), :]] on a frame with more than [n] rows: the
    first [n] rows; [range(n)] is empty for [n <= 0]. *)
Definition iloc_range (n : Z) (df : DataFrame) : DataFrame := take (Z.to_nat n) df.

(** ** class LimitSelectorsComparator *)
Module LimitSelectorsComparator.

Record t := mk { selectors : list TargetSelector; limit : Z }.

(** [__init__] with its default [limit=10]. *)
Definition init (selectors : list TargetSelector) : t := mk selectors 10.

(** What one selector of the queried level adds to [df_result]: its frame,
    sorted and cut to [limit] rows when it is not empty. *)
Definition selector_rows (self : t) (timestamp : timestamp) (selector : TargetSelector)
  : DataFrame :=
  let df := get_targets selector timestamp in
  if negb (empty_df df) then
    let df := sort_values df in
    if Z.of_nat (length df) >? limit self then iloc_range (limit self) df else df
  else df.

(** [make_decision]: the loop over [self.selectors], [df_result] being the
    accumulator; [df_result.append(df)] puts the rows of [df] after those
    already there. *)
Definition make_decision (self : t) (timestamp : timestamp) (trading_level : TradingLevel)
  : DataFrame :=
  fold_left
    (fun df_result selector =>
       if bool_decide (level selector = trading_level)
       then df_result ++ selector_rows self timestamp selector
       else df_result)
    (selectors self) [].

End LimitSelectorsComparator.

(** ** class TargetsSlot *)
Module TargetsSlot.

Record t := mk { level_map_targets : gmap string py_targets }.

(** [__init__] *)
Definition init : t := mk ∅.

(** [get_targets]: [dict.get], so [None] for a level never written. *)
Definition get_targets (self : t) (lvl : TradingLevel) : option py_targets :=
  level_map_targets self !! value lvl.

(** [input_targets]: the log line reads the old entry and changes
    nothing; the assignment overwrites the key [level.value]. *)
Definition input_targets (self : t) (lvl : TradingLevel) (targets : py_targets) : t :=
  mk (<[value lvl := targets]> (level_map_targets self)).

End TargetsSlot.

(** ** Signals and the account snapshot *)

(** [zvt.trader.TradingSignalType], through the two members used here. *)
Inductive TradingSignalType :=
| trading_signal_open_long
| trading_signal_close_long.

#[global] Instance TradingSignalType_eq_dec : EqDecision TradingSignalType.
Proof. solve_decision. Defined.

(** [zvt.trader.TradingSignal] *)
Module TradingSignal.

(** Modelled from the spec: the class [zvt.trader.TradingSignal] is declared
    outside this file.  The spec gives a signal the fields
    [(instrumentId, timestamp, kind, level, orderMoney?, positionPct?)], the
    last two optional: a keyword the caller does not pass is absent. *)
Record t := mk {
  security_id : string;
  the_timestamp : timestamp;
  trading_signal_type : TradingSignalType;
  trading_level : TradingLevel;
  order_money : option float;
  position_pct : option float
}.

End TradingSignal.

(** [account['positions']] entries and the account dictionary, as the
    account service hands them out. *)
Record Position := mkPosition { position_security_id : string; available_long : float }.

Record Account := mkAccount { cash : float; positions : list Position }.

(** A listener is a Python object; [in] and [list.remove] compare with
    [==], which is identity for these objects. *)
Definition Listener := nat.

(** [zvt.trader.account.SimAccountService], through what the trader reads. *)
Record AccountService := mkAccountService {
  service_id : Listener;
  latest_account : Account
}.

(** [float(n)] for the length of a collection. *)
Definition float_of_len (n : nat) : float :=
  PrimFloat.of_uint63 (Uint63.of_Z (Z.of_nat n)).

(** Python's [list.remove]: drops the first element equal to [x]. *)
Fixpoint py_list_remove (x : Listener) (l : list Listener) : list Listener :=
  match l with
  | [] => []
  | y :: l' => if bool_decide (y = x) then l' else y :: py_list_remove x l'
  end.

(** ** class Trader *)
Module Trader.

Record t := mk {
  trader_name : string;
  trading_signal_listeners : list Listener;
  state_listeners : list Listener;
  selectors : list TargetSelector;
  security_list : option (list string);
  security_type : string;
  exchanges : list string;
  codes : option (list string);
  provider : string;
  trading_level : TradingLevel;
  real_time : bool;
  start_timestamp : timestamp;
  end_timestamp : timestamp;
  kdata_use_begin_time : bool;
  account_service : AccountService;
  selectors_comparator : LimitSelectorsComparator.t;
  trading_level_asc : list TradingLevel;
  trading_level_desc : list TradingLevel;
  targets_slot : TargetsSlot.t
}.

(** The arguments of [__init__]; [None] is Python's [None]. *)
Record args := mkArgs {
  arg_security_list : option (list string);
  arg_security_type : string;
  arg_exchanges : list string;
  arg_codes : option (list string);
  arg_start_timestamp : option timestamp;
  arg_end_timestamp : option timestamp;
  arg_provider : string;
  arg_trading_level : TradingLevel;
  arg_trader_name : option string;
  arg_real_time : bool;
  arg_kdata_use_begin_time : bool
}.

(** The listener list after [add_trading_signal_listener]. *)
Definition listeners_add (listeners : list Listener) (listener : Listener) : list Listener :=
  if bool_decide (listener ∉ listeners) then listeners ++ [listener] else listeners.

(** The listener list after [remove_trading_signal_listener]. *)
Definition listeners_remove (listeners : list Listener) (listener : Listener) : list Listener :=
  if bool_decide (listener ∈ listeners) then py_list_remove listener listeners else listeners.

Section Init.

(** What the constructor takes from outside this file. *)

(** [type(self).__name__.lower()] *)
Variable class_name : string.
(** the value [now_pd_timestamp()] returns when the constructor reads it *)
Variable now_pd_timestamp : timestamp.
(** [self.init_selectors(...)], the hook a subclass implements: it sets
    [self.selectors] or raises; the base class raises [NotImplementedError] *)
Variable init_selectors :
  option (list string) → string → list string → option (list string) →
  timestamp → timestamp → exn + list TargetSelector.
(** [SimAccountService(trader_name=, timestamp=, provider=, level=)] *)
Variable SimAccountService : string → timestamp → string → TradingLevel → AccountService.
(** [list(set(levels))] followed by [.sort()], the order being the one
    [TradingLevel] declares *)
Variable sorted_levels : list TradingLevel → list TradingLevel.

(** [__init__]: [inl e] when the constructor raises [e], the new object
    otherwise.  An absent or empty [trader_name] is falsy. *)
Definition __init__ (a : args) : exn + t :=
  let trader_name :=
    match arg_trader_name a with
    | Some (String c n) => String c n
    | _ => class_name
    end in
  let trading_signal_listeners : list Listener := [] in
  match arg_start_timestamp a, arg_end_timestamp a with
  | Some start_timestamp, Some end_timestamp =>
      if arg_real_time a && negb (now_pd_timestamp <=? end_timestamp)
      then inl AssertionError
      else
        let account_service :=
          SimAccountService trader_name start_timestamp (arg_provider a)
                            (arg_trading_level a) in
        let trading_signal_listeners :=
          listeners_add trading_signal_listeners (service_id account_service) in
        match init_selectors (arg_security_list a) (arg_security_type a)
                (arg_exchanges a) (arg_codes a) start_timestamp end_timestamp with
        | inl e => inl e
        | inr selectors =>
            let trading_level_asc := sorted_levels (level <$> selectors) in
            inr {| trader_name := trader_name;
                   trading_signal_listeners := trading_signal_listeners;
                   state_listeners := [];
                   selectors := selectors;
                   security_list := arg_security_list a;
                   security_type := arg_security_type a;
                   exchanges := arg_exchanges a;
                   codes := arg_codes a;
                   provider := arg_provider a;
                   trading_level := arg_trading_level a;
                   real_time := arg_real_time a;
                   start_timestamp := start_timestamp;
                   end_timestamp := end_timestamp;
                   kdata_use_begin_time := arg_kdata_use_begin_time a;
                   account_service := account_service;
                   selectors_comparator := LimitSelectorsComparator.init selectors;
                   trading_level_asc := trading_level_asc;
                   trading_level_desc := reverse trading_level_asc;
                   targets_slot := TargetsSlot.init |}
        end
  | _, _ => inl AssertionError
  end.

End Init.

(** [self.trading_signal_listeners] replaced, every other attribute kept. *)
Definition with_listeners (self : t) (listeners : list Listener) : t :=
  {| trader_name := trader_name self;
     trading_signal_listeners := listeners;
     state_listeners := state_listeners self;
     selectors := selectors self;
     security_list := security_list self;
     security_type := security_type self;
     exchanges := exchanges self;
     codes := codes self;
     provider := provider self;
     trading_level := trading_level self;
     real_time := real_time self;
     start_timestamp := start_timestamp self;
     end_timestamp := end_timestamp self;
     kdata_use_begin_time := kdata_use_begin_time self;
     account_service := account_service self;
     selectors_comparator := selectors_comparator self;
     trading_level_asc := trading_level_asc self;
     trading_level_desc := trading_level_desc self;
     targets_slot := targets_slot self |}.

Definition add_trading_signal_listener (self : t) (listener : Listener) : t :=
  with_listeners self (listeners_add (trading_signal_listeners self) listener).

Definition remove_trading_signal_listener (self : t) (listener : Listener) : t :=
  with_listeners self (listeners_remove (trading_signal_listeners self) listener).

(** *** handle_targets_slot *)

(** Truth value of the local [selected]: [None] and the empty set are
    both falsy. *)
Definition truthy_selected (selected : option (gset string)) : bool :=
  match selected with
  | Some s => truthy_set s
  | None => false
  end.

(** The set behind a truthy stored entry. *)
Definition as_set (o : option py_targets) : gset string :=
  match o with
  | Some (PySet s) => s
  | _ => ∅
  end.

(** One turn of the loop over [self.trading_level_desc]. *)
Definition selected_step (slot : TargetsSlot.t)
    (selected : option (gset string)) (lvl : TradingLevel) : option (gset string) :=
  let targets := TargetsSlot.get_targets slot lvl in
  let targets := if negb (truthy targets) then ∅ else as_set targets in
  match selected with
  | Some s => if negb (truthy_selected selected) then Some targets else Some (s ∩ targets)
  | None => Some targets
  end.

(** The value of [selected] when the loop ends. *)
Definition consensus (self : t) : option (gset string) :=
  fold_left (selected_step (targets_slot self)) (trading_level_desc self) None.

(** *** send_trading_signals *)

(** [current_holdings], the list comprehension over the positions. *)
Definition current_holdings (account : Account) : list string :=
  position_security_id <$> List.filter (fun p => PrimFloat.ltb 0 (available_long p))
                                       (positions account).

(** The signals the two loops build, in the order they are built.  A
    Python set is iterated in an order the language leaves open; [elements]
    fixes one. *)
Definition trading_signals (trading_level : TradingLevel) (account : Account)
    (timestamp : timestamp) (selected : option (gset string)) : list TradingSignal.t :=
  let current_holdings := current_holdings account in
  let opened :=
    match selected with
    | Some s =>
        if truthy_selected selected then
          let longed := s ∖ list_to_set current_holdings in
          if truthy_set longed then
            let position_pct := (1 / float_of_len (size longed))%float in
            let order_money := (cash account * position_pct)%float in
            (fun security_id =>
               TradingSignal.mk security_id timestamp trading_signal_open_long
                                trading_level (Some order_money) None)
              <$> elements longed
          else []
        else []
    | None => []
    end in
  let shorted : gset string :=
    match selected with
    | Some s =>
        if truthy_selected selected
        then list_to_set current_holdings ∖ s
        else list_to_set current_holdings
    | None => list_to_set current_holdings
    end in
  let closed :=
    (fun security_id =>
       TradingSignal.mk security_id timestamp trading_signal_close_long
                        trading_level None (Some 1%float))
      <$> elements shorted in
  opened ++ closed.

(** Every signal goes to every listener, in registration order: the calls
    [listener.on_trading_signal(trading_signal)] in the order they happen.
    The holdings and the cash are read before the first call. *)
Definition dispatch (listeners : list Listener) (signals : list TradingSignal.t)
  : list (Listener * TradingSignal.t) :=
  List.flat_map (fun signal => (fun listener => (listener, signal)) <$> listeners) signals.

Definition send_trading_signals (self : t) (timestamp : timestamp)
    (selected : option (gset string)) : list (Listener * TradingSignal.t) :=
  dispatch (trading_signal_listeners self)
           (trading_signals (trading_level self) (latest_account (account_service self))
                            timestamp selected).

Definition handle_targets_slot (self : t) (timestamp : timestamp)
  : list (Listener * TradingSignal.t) :=
  send_trading_signals self timestamp (consensus self).

(** The entry [run] writes for a level after [make_decision]. *)
Definition decided_targets (df : DataFrame) : py_targets :=
  if negb (empty_df df) then PySet (list_to_set (security_ids df)) else PyEmptyDict.

(** *** run

    The loop of [run] calls collaborators declared outside this file: the
    calendar functions of [zvt.api.rules], [TradingLevel.to_second] and
    [count_from_timestamp], [time.sleep], the selectors' [move_on], the
    account service and the two chart functions of [on_finish].  The calls
    [run] makes are recorded, in order, as events; what the collaborators
    answer is a parameter.  A collaborator is taken to return normally and
    to leave the attributes of the trader alone; a selector's frame for a
    timestamp is the function [get_targets] of that timestamp. *)

(** [self.targets_slot] replaced, every other attribute kept. *)
Definition with_targets_slot (self : t) (slot : TargetsSlot.t) : t :=
  {| trader_name := trader_name self;
     trading_signal_listeners := trading_signal_listeners self;
     state_listeners := state_listeners self;
     selectors := selectors self;
     security_list := security_list self;
     security_type := security_type self;
     exchanges := exchanges self;
     codes := codes self;
     provider := provider self;
     trading_level := trading_level self;
     real_time := real_time self;
     start_timestamp := start_timestamp self;
     end_timestamp := end_timestamp self;
     kdata_use_begin_time := kdata_use_begin_time self;
     account_service := account_service self;
     selectors_comparator := selectors_comparator self;
     trading_level_asc := trading_level_asc self;
     trading_level_desc := trading_level_desc self;
     targets_slot := slot |}.

(** The account service showing [account] as its [latest_account]. *)
Definition with_latest_account (self : t) (account : Account) : t :=
  {| trader_name := trader_name self;
     trading_signal_listeners := trading_signal_listeners self;
     state_listeners := state_listeners self;
     selectors := selectors self;
     security_list := security_list self;
     security_type := security_type self;
     exchanges := exchanges self;
     codes := codes self;
     provider := provider self;
     trading_level := trading_level self;
     real_time := real_time self;
     start_timestamp := start_timestamp self;
     end_timestamp := end_timestamp self;
     kdata_use_begin_time := kdata_use_begin_time self;
     account_service :=
       mkAccountService (service_id (account_service self)) account;
     selectors_comparator := selectors_comparator self;
     trading_level_asc := trading_level_asc self;
     trading_level_desc := trading_level_desc self;
     targets_slot := targets_slot self |}.

(** The calls to collaborators that [run] makes. *)
Inductive event :=
| sleep (seconds : float)
| move_on (selector : nat) (timestamp to_touching_timestamp : timestamp)
| on_trading_open (timestamp : timestamp)
| on_trading_signal (listener : Listener) (signal : TradingSignal.t)
| on_trading_close (timestamp : timestamp)
| draw_account_details (trader_name : string)
| draw_order_signals (trader_name : string).

Section Run.

(** [TradingLevel.LEVEL_1DAY] *)
Variable LEVEL_1DAY : TradingLevel.
(** [level.to_second()], timestamps counting seconds *)
Variable to_second : TradingLevel → Z.
(** [iterate_timestamps(security_type, exchange, start_timestamp,
    end_timestamp, level)], the timestamps the generator yields *)
Variable iterate_timestamps :
  string → string → timestamp → timestamp → TradingLevel → list timestamp.
(** [is_open_time] and [is_close_time(security_type, exchange, timestamp)] *)
Variable is_open_time : string → string → timestamp → bool.
Variable is_close_time : string → string → timestamp → bool.
(** [is_in_finished_timestamps(security_type, exchange, timestamp, level)] *)
Variable is_in_finished_timestamps : string → string → timestamp → TradingLevel → bool.
(** [get_one_day_trading_minutes(security_type)] *)
Variable get_one_day_trading_minutes : string → Z.
(** the first component of [level.count_from_timestamp(touching_timestamp,
    one_day_trading_minutes)], [None] or a number of seconds; it reads the
    clock, so it is taken after the calls made so far *)
Variable count_from_timestamp : list event → TradingLevel → timestamp → Z → option float.
(** [self.account_service.latest_account] after the calls made so far *)
Variable latest_account_after : list event → Account.

(** Lines 246-279: the pacing of a tick, as the calls it makes.  Nothing
    happens outside real-time mode or before a first tick is handled
    ([handled_timestamp] is [None]); [waiting_seconds and
    (waiting_seconds > 10)] holds for a number above ten only. *)
Definition pacing (self : t) (exchange : string) (trace : list event)
    (handled_timestamp : option timestamp) (timestamp : timestamp) : list event :=
  match handled_timestamp with
  | Some handled =>
      if real_time self then
        let touching_timestamp :=
          if kdata_use_begin_time self
          then handled + to_second (trading_level self)
          else handled in
        match count_from_timestamp trace (trading_level self) touching_timestamp
                (get_one_day_trading_minutes (security_type self)) with
        | Some waiting_seconds =>
            if PrimFloat.ltb 10 waiting_seconds then
              sleep (waiting_seconds / 2)
              :: List.flat_map
                   (fun '(i, selector) =>
                      if is_in_finished_timestamps (security_type self) exchange
                           timestamp (level selector)
                      then
                        let to_touching_timestamp :=
                          if kdata_use_begin_time self
                          then timestamp + to_second (level selector)
                          else timestamp in
                        [move_on i timestamp to_touching_timestamp]
                      else [])
                   (imap (fun i selector => (i, selector)) (selectors self))
            else []
        | None => []
        end
      else []
  | None => []
  end.

(** The condition of lines 282-285, and of lines 307-310 with
    [is_close_time]. *)
Definition session_boundary (self : t) (at_boundary : bool) : bool :=
  bool_decide (trading_level self = LEVEL_1DAY)
  || (negb (bool_decide (trading_level self = LEVEL_1DAY)) && at_boundary).

(** Lines 291-302: every level whose bar is finished at [timestamp] gets
    the decision of the comparator written to the slot, the levels taken
    in ascending order. *)
Definition refresh_targets_slot (self : t) (exchange : string) (timestamp : timestamp) : t :=
  with_targets_slot self
    (fold_left
       (fun slot lvl =>
          if is_in_finished_timestamps (security_type self) exchange timestamp lvl
          then
            let df := LimitSelectorsComparator.make_decision
                        (selectors_comparator self) timestamp lvl in
            TargetsSlot.input_targets slot lvl (decided_targets df)
          else slot)
       (trading_level_asc self) (targets_slot self)).

(** What the loop carries from one turn to the next: the trader, the
    calls made so far and [handled_timestamp]. *)
Definition loop_state : Type := t * list event * option timestamp.

(** One turn of the loop. *)
Definition tick (exchange : string) (state : loop_state) (timestamp : timestamp)
  : loop_state :=
  let '(self, trace, handled_timestamp) := state in
  let trace := trace ++ pacing self exchange trace handled_timestamp timestamp in
  let trace :=
    if session_boundary self (is_open_time (security_type self) exchange timestamp)
    then trace ++ [on_trading_open timestamp]
    else trace in
  let calls :=
    handle_targets_slot (with_latest_account self (latest_account_after trace)) timestamp in
  let trace := trace ++ ((fun call => on_trading_signal call.1 call.2) <$> calls) in
  let self := refresh_targets_slot self exchange timestamp in
  let trace :=
    if session_boundary self (is_close_time (security_type self) exchange timestamp)
    then trace ++ [on_trading_close timestamp]
    else trace in
  (self, trace, Some timestamp).

(** [on_finish] *)
Definition on_finish (self : t) : list event :=
  [draw_account_details (trader_name self); draw_order_signals (trader_name self)].

(** [run]: the trader and the calls made when it returns; [None] when
    [self.exchanges[0]] raises [IndexError], which happens before the
    first timestamp is asked for. *)
Definition run (self : t) : option (t * list event) :=
  match exchanges self with
  | [] => None
  | exchange :: _ =>
      let timestamps :=
        iterate_timestamps (security_type self) exchange (start_timestamp self)
                           (end_timestamp self) (trading_level self) in
      let '(self, trace, _) := fold_left (tick exchange) timestamps (self, [], None) in
      Some (self, trace ++ on_finish self)
  end.

End Run.

End Trader.

(** * The behaviour the specification describes *)

(** The selectors of a comparator whose level is the queried one. *)
Definition matching_selectors (self : LimitSelectorsComparator.t) (lvl : TradingLevel)
  : list TargetSelector :=
  List.filter (fun s => bool_decide (level s = lvl)) (LimitSelectorsComparator.selectors self).

(** "if the sorted list exceeds [limit], keep only the first [limit]
    entries" *)
Definition keep_first (limit : Z) (df : DataFrame) : DataFrame :=
  if Z.of_nat (length df) >? limit then take (Z.to_nat limit) df else df.

(** The comparator as the specification words it: gather the full lists of
    the matching selectors, concatenate, sort, cut. *)
Definition make_decision_reference (self : LimitSelectorsComparator.t)
    (timestamp : timestamp) (lvl : TradingLevel) : DataFrame :=
  let gathered :=
    concat ((fun s => get_targets s timestamp) <$> matching_selectors self lvl) in
  keep_first (LimitSelectorsComparator.limit self) (sort_values gathered).

(** The cached set of a level, "absent treated as empty". *)
Definition cached (slot : TargetsSlot.t) (lvl : TradingLevel) : gset string :=
  Trader.as_set (TargetsSlot.get_targets slot lvl).

(** The consensus as the specification words it: start from the coarsest
    level's set and intersect with every further level's set. *)
Definition consensus_reference (slot : TargetsSlot.t) (levels : list TradingLevel)
  : option (gset string) :=
  match levels with
  | [] => None
  | lvl :: rest => Some (fold_left (fun acc l => acc ∩ cached slot l) rest (cached slot lvl))
  end.

(** No running intersection that a further level follows is empty. *)
Fixpoint running_nonempty (slot : TargetsSlot.t) (acc : gset string)
    (levels : list TradingLevel) : Prop :=
  match levels with
  | [] => True
  | l :: rest => acc ≠ ∅ ∧ running_nonempty slot (acc ∩ cached slot l) rest
  end.

(** The instruments that get a signal of one kind. *)
Definition signalled (kind : TradingSignalType) (signals : list TradingSignal.t)
  : gset string :=
  list_to_set
    (TradingSignal.security_id
       <$> List.filter (fun sig => bool_decide (TradingSignal.trading_signal_type sig = kind))
                       signals).

(** The instruments held long: positions with [available_long > 0]. *)
Definition holdings (account : Account) : gset string :=
  list_to_set (Trader.current_holdings account).

(** * Concrete inputs *)

Definition LEVEL_1DAY : TradingLevel := mkTradingLevel "1d".
Definition LEVEL_1HOUR : TradingLevel := mkTradingLevel "1h".
Definition LEVEL_5MIN : TradingLevel := mkTradingLevel "5m".

(** A selector that returns the same frame at every timestamp. *)
Definition fixed_selector (lvl : TradingLevel) (df : DataFrame) : TargetSelector :=
  mkSelector lvl (fun _ => df).

#[local] Set Warnings "-inexact-float".

(** The literals are read as Python reads them, to the nearest binary64
    number. *)
Definition scenario1_selector : TargetSelector :=
  fixed_selector LEVEL_1DAY [mkRow "A" 0.9; mkRow "B" 0.8; mkRow "C" 0.95].

(** Scenario 1 of the specification: one day-level selector, limit 2. *)
Definition scenario1 : LimitSelectorsComparator.t :=
  LimitSelectorsComparator.mk [scenario1_selector] 2.

(** Two day-level selectors, limit 2. *)
Definition two_selectors : LimitSelectorsComparator.t :=
  LimitSelectorsComparator.mk
    [fixed_selector LEVEL_1DAY [mkRow "A" 0.5; mkRow "B" 0.6];
     fixed_selector LEVEL_1DAY [mkRow "A" 0.5; mkRow "C" 0.7]] 2.

(** Scenario 1 next to a second day-level selector. *)
Definition scenario1_and_one : LimitSelectorsComparator.t :=
  LimitSelectorsComparator.mk
    [scenario1_selector; fixed_selector LEVEL_1DAY [mkRow "D" 0.1]] 2.

#[local] Set Warnings "inexact-float".

(** A trader object with the given levels, slot, listeners and account. *)
Definition trader_with (levels_desc : list TradingLevel) (slot : TargetsSlot.t)
    (listeners : list Listener) (account : Account) : Trader.t :=
  {| Trader.trader_name := "trader";
     Trader.trading_signal_listeners := listeners;
     Trader.state_listeners := [];
     Trader.selectors := [];
     Trader.security_list := None;
     Trader.security_type := "stock";
     Trader.exchanges := ["sh"; "sz"];
     Trader.codes := None;
     Trader.provider := "joinquant";
     Trader.trading_level := LEVEL_5MIN;
     Trader.real_time := false;
     Trader.start_timestamp := 0;
     Trader.end_timestamp := 100;
     Trader.kdata_use_begin_time := false;
     Trader.account_service := mkAccountService 0%nat account;
     Trader.selectors_comparator := LimitSelectorsComparator.init [];
     Trader.trading_level_asc := reverse levels_desc;
     Trader.trading_level_desc := levels_desc;
     Trader.targets_slot := slot |}.

(** The day level decided nothing, the five-minute level decided [Y]. *)
Definition slot_day_empty : TargetsSlot.t :=
  TargetsSlot.input_targets
    (TargetsSlot.input_targets TargetsSlot.init LEVEL_1DAY PyEmptyDict)
    LEVEL_5MIN (PySet {["Y"]}).

(** Three levels with pairwise disjoint decisions. *)
Definition slot_disjoint : TargetsSlot.t :=
  TargetsSlot.input_targets
    (TargetsSlot.input_targets
       (TargetsSlot.input_targets TargetsSlot.init LEVEL_1DAY (PySet {["X"]}))
       LEVEL_1HOUR (PySet {["Y"]}))
    LEVEL_5MIN (PySet {["Z"]}).

(** Scenario 2 of the specification. *)
Definition slot_scenario2 : TargetsSlot.t :=
  TargetsSlot.input_targets
    (TargetsSlot.input_targets TargetsSlot.init LEVEL_1DAY (PySet {["X"; "Y"]}))
    LEVEL_5MIN (PySet {["Y"; "Z"]}).

Definition account_empty (cash : float) : Account := mkAccount cash [].

(** Cash 10000, one position [X] held long. *)
Definition account_scenario3 : Account := mkAccount 10000 [mkPosition "X" 100].

(** Constructor arguments: real-time mode, end timestamp 5. *)
Definition args_real_time_end_5 : Trader.args :=
  {| Trader.arg_security_list := None;
     Trader.arg_security_type := "stock";
     Trader.arg_exchanges := ["sh"; "sz"];
     Trader.arg_codes := None;
     Trader.arg_start_timestamp := Some 1;
     Trader.arg_end_timestamp := Some 5;
     Trader.arg_provider := "joinquant";
     Trader.arg_trading_level := LEVEL_1DAY;
     Trader.arg_trader_name := None;
     Trader.arg_real_time := true;
     Trader.arg_kdata_use_begin_time := false |}.

(** The hook of a subclass that installs the selector of scenario 1. *)
Definition init_selectors_scenario1
    (_ : option (list string)) (_ : string) (_ : list string) (_ : option (list string))
    (_ _ : timestamp) : exn + list TargetSelector :=
  inr [scenario1_selector].

(** The hook of the base class. *)
Definition init_selectors_base
    (_ : option (list string)) (_ : string) (_ : list string) (_ : option (list string))
    (_ _ : timestamp) : exn + list TargetSelector :=
  inl NotImplementedError.

(** An account service with a million in cash and no position. *)
Definition sim_account_service
    (_ : string) (_ : timestamp) (_ : string) (_ : TradingLevel) : AccountService :=
  mkAccountService 0%nat (account_empty 1000000).

(** ** Further notions and inputs *)

(** Two comparisons in a row, neither of them [Gt]: the first that is not
    [Eq] decides. *)
Definition before (c1 c2 : comparison) : comparison :=
  match c1, c2 with
  | Eq, Eq => Eq
  | _, _ => Lt
  end.

(** An instrument is held long when the account shows a position in it
    with [available_long > 0]. *)
Definition held_long (account : Account) (id : string) : Prop :=
  ∃ p, p ∈ positions account ∧ position_security_id p = id
       ∧ PrimFloat.ltb 0 (available_long p) = true.

(** The signals one listener is handed among the calls, in order. *)
Definition received (listener : Listener) (calls : list (Listener * TradingSignal.t))
  : list TradingSignal.t :=
  (fun call => call.2) <$> filter (fun call => call.1 = listener) calls.

(** A sequence of [input_targets] calls, first to last. *)
Definition input_all (slot : TargetsSlot.t) (writes : list (TradingLevel * py_targets))
  : TargetsSlot.t :=
  fold_left (fun slot w => TargetsSlot.input_targets slot w.1 w.2) writes slot.

(** The calls of the pacing: [time.sleep] and [selector.move_on]. *)
Definition is_pacing (e : Trader.event) : bool :=
  match e with
  | Trader.sleep _ | Trader.move_on _ _ _ => true
  | _ => false
  end.

Definition is_sleep (e : Trader.event) : bool :=
  match e with
  | Trader.sleep _ => true
  | _ => false
  end.

(** The signals among the calls, in order. *)
Definition signals_of (trace : list Trader.event) : list (Listener * TradingSignal.t) :=
  List.flat_map
    (fun e => match e with
              | Trader.on_trading_signal listener signal => [(listener, signal)]
              | _ => []
              end)
    trace.

#[local] Set Warnings "-inexact-float".

(** Scenario 1 with a five-minute selector beside the day-level one. *)
Definition scenario1_with_5min : LimitSelectorsComparator.t :=
  LimitSelectorsComparator.mk
    [fixed_selector LEVEL_5MIN [mkRow "Z" 0.3]; scenario1_selector] 2.

#[local] Set Warnings "inexact-float".

(** Scenario 1 with the default limit of ten, and with a limit of zero. *)
Definition scenario1_limit10 : LimitSelectorsComparator.t :=
  LimitSelectorsComparator.init [scenario1_selector].

Definition scenario1_limit0 : LimitSelectorsComparator.t :=
  LimitSelectorsComparator.mk [scenario1_selector] 0.

(** A back-test calendar of three days on which every bar is finished;
    no tick is a session boundary of its own, the clock is twenty seconds
    behind at every tick, and the account is that of scenario 3 all
    along. *)
Definition three_days (_ _ : string) (_ _ : timestamp) (_ : TradingLevel) : list timestamp :=
  [1; 2; 3].

Definition always_finished (_ _ : string) (_ : timestamp) (_ : TradingLevel) : bool := true.

Definition never_boundary (_ _ : string) (_ : timestamp) : bool := false.

Definition day_seconds (_ : TradingLevel) : Z := 86400.

Definition trading_minutes (_ : string) : Z := 240.

Definition twenty_seconds (_ : list Trader.event) (_ : TradingLevel) (_ : timestamp) (_ : Z)
  : option float := Some 20%float.

Definition account_fixed (_ : list Trader.event) : Account := account_scenario3.

(** A day-level trader over the selector of scenario 1, with the account
    service as listener; in back-test or in real-time mode. *)
Definition day_trader (real_time : bool) : Trader.t :=
  {| Trader.trader_name := "trader";
     Trader.trading_signal_listeners := [0%nat];
     Trader.state_listeners := [];
     Trader.selectors := [scenario1_selector];
     Trader.security_list := None;
     Trader.security_type := "stock";
     Trader.exchanges := ["sh"; "sz"];
     Trader.codes := None;
     Trader.provider := "joinquant";
     Trader.trading_level := LEVEL_1DAY;
     Trader.real_time := real_time;
     Trader.start_timestamp := 1;
     Trader.end_timestamp := 3;
     Trader.kdata_use_begin_time := false;
     Trader.account_service := mkAccountService 0%nat account_scenario3;
     Trader.selectors_comparator := LimitSelectorsComparator.mk [scenario1_selector] 2;
     Trader.trading_level_asc := [LEVEL_1DAY];
     Trader.trading_level_desc := [LEVEL_1DAY];
     Trader.targets_slot := TargetsSlot.init |}.

(** The run of [day_trader] on that calendar. *)
Definition run_day_trader (real_time : bool) : option (Trader.t * list Trader.event) :=
  Trader.run LEVEL_1DAY day_seconds three_days never_boundary never_boundary
             always_finished trading_minutes twenty_seconds account_fixed
             (day_trader real_time).

(** * Properties *)

#[local] Set Warnings "-clear-no-such-hyp".

(** ** LimitSelectorsComparator *)

Section Comparator.

Variable self : LimitSelectorsComparator.t.
Variable ts : timestamp.

#[local] Abbreviation limit := (LimitSelectorsComparator.limit self).

(** The loop, with any rows already accumulated in front. *)
Lemma make_decision_fold (lvl : TradingLevel) (sels : list TargetSelector) (acc : DataFrame) :
  fold_left
    (fun df_result selector =>
       if bool_decide (level selector = lvl)
       then df_result ++ LimitSelectorsComparator.selector_rows self ts selector
       else df_result)
    sels acc
  = acc ++ concat (LimitSelectorsComparator.selector_rows self ts
                     <$> List.filter (fun s => bool_decide (level s = lvl)) sels).
Proof.
  revert acc. induction sels as [| s sels IH]; intros acc; simpl.
  - by rewrite app_nil_r.
  - rewrite IH. case_bool_decide; simpl; [by rewrite <- app_assoc | done].
Qed.

(** [make_decision] puts the blocks of the matching selectors one after
    the other, in the order of [self.selectors]. *)
Lemma make_decision_blocks (lvl : TradingLevel) :
  LimitSelectorsComparator.make_decision self ts lvl
  = concat (LimitSelectorsComparator.selector_rows self ts <$> matching_selectors self lvl).
Proof. unfold LimitSelectorsComparator.make_decision. by rewrite make_decision_fold. Qed.

Lemma sort_values_length (df : DataFrame) : length (sort_values df) = length df.
Proof. unfold sort_values. by rewrite merge_sort_Permutation. Qed.

Lemma sort_values_nil : sort_values [] = [].
Proof. reflexivity. Qed.

(** A block is the selector's frame, sorted and cut. *)
Lemma selector_rows_keep_first (s : TargetSelector) :
  LimitSelectorsComparator.selector_rows self ts s
  = keep_first limit (sort_values (get_targets s ts)).
Proof.
  unfold LimitSelectorsComparator.selector_rows, keep_first, iloc_range.
  destruct (get_targets s ts) as [| r df] eqn:E; simpl; [| done].
  rewrite sort_values_nil. destruct (_ >? _); [by rewrite take_nil | done].
Qed.

Lemma keep_first_length (df : DataFrame) :
  (length (keep_first limit df) ≤ Z.to_nat limit)%nat.
Proof.
  unfold keep_first. destruct (Z.gtb_spec (Z.of_nat (length df)) limit).
  - rewrite length_take. lia.
  - lia.
Qed.

Lemma keep_first_submseteq (df : DataFrame) : keep_first limit df ⊆+ df.
Proof.
  unfold keep_first. destruct (_ >? _); [| done].
  apply sublist_submseteq, sublist_take.
Qed.

Lemma selector_rows_length (s : TargetSelector) :
  (length (LimitSelectorsComparator.selector_rows self ts s) ≤ Z.to_nat limit)%nat.
Proof. rewrite selector_rows_keep_first. apply keep_first_length. Qed.

Lemma selector_rows_submseteq (s : TargetSelector) :
  LimitSelectorsComparator.selector_rows self ts s ⊆+ get_targets s ts.
Proof.
  rewrite selector_rows_keep_first.
  etrans; [apply keep_first_submseteq |].
  apply Permutation_submseteq. unfold sort_values. apply merge_sort_Permutation.
Qed.

Lemma blocks_length (sels : list TargetSelector) :
  (length (concat (LimitSelectorsComparator.selector_rows self ts <$> sels))
   ≤ Z.to_nat limit * length sels)%nat.
Proof.
  induction sels as [| s sels IH]; csimpl; [lia |].
  rewrite length_app, Nat.mul_succ_r. pose proof (selector_rows_length s). lia.
Qed.

Lemma blocks_submseteq (sels : list TargetSelector) :
  concat (LimitSelectorsComparator.selector_rows self ts <$> sels)
  ⊆+ concat ((fun s => get_targets s ts) <$> sels).
Proof.
  induction sels as [| s sels IH]; csimpl; [done |].
  apply submseteq_app; [apply selector_rows_submseteq | apply IH].
Qed.

End Comparator.

Lemma NoDup_submseteq_inv {A} (l k : list A) : l ⊆+ k → NoDup k → NoDup l.
Proof.
  intros Hsub Hk. apply submseteq_Permutation in Hsub as [k' Hk'].
  rewrite Hk' in Hk. by apply NoDup_app in Hk as [? _].
Qed.

(** C2, as amended: every selector of the queried level contributes at most
    [limit] rows, so the result has at most [limit * m] rows for [m] such
    selectors (at most [limit] when there is one); and it has no duplicate
    id when no id occurs twice among the target lists of those selectors. *)
Theorem make_decision_bounded_per_selector
    (self : LimitSelectorsComparator.t) (ts : timestamp) (lvl : TradingLevel) :
  let result := LimitSelectorsComparator.make_decision self ts lvl in
  let matching := matching_selectors self lvl in
  let limit := LimitSelectorsComparator.limit self in
  (length result ≤ Z.to_nat limit * length matching)%nat
  ∧ ((length matching ≤ 1)%nat → 0 ≤ limit → Z.of_nat (length result) ≤ limit)
  ∧ (NoDup (security_ids (concat ((fun s => get_targets s ts) <$> matching)))
     → NoDup (security_ids result)).
Proof.
  intros result matching limit. subst result.
  rewrite make_decision_blocks. fold matching.
  pose proof (blocks_length self ts matching) as Hlen. fold limit in Hlen.
  split; [exact Hlen |]. split.
  - intros Hm Hl. nia.
  - apply NoDup_submseteq_inv. unfold security_ids.
    apply fmap_submseteq, blocks_submseteq.
Qed.

(** Scenario 1: one selector on the level, three distinct ids, limit 2. *)
Lemma make_decision_bounded_per_selector_witness :
  Z.of_nat (length (LimitSelectorsComparator.make_decision scenario1 0 LEVEL_1DAY)) ≤ 2
  ∧ NoDup (security_ids (LimitSelectorsComparator.make_decision scenario1 0 LEVEL_1DAY)).
Proof.
  destruct (make_decision_bounded_per_selector scenario1 0 LEVEL_1DAY)
    as (_ & Hone & Hnodup).
  split.
  - apply Hone; [vm_compute; lia | vm_compute; discriminate].
  - apply Hnodup. apply (bool_decide_unpack _). vm_compute. exact I.
Defined.

(** C2, as stated, fails with two selectors on one level: each is cut to
    [limit = 2] rows on its own, the result has four rows naming three
    instruments, and [A] comes twice. *)
Lemma make_decision_exceeds_limit_and_repeats :
  let result := LimitSelectorsComparator.make_decision two_selectors 0 LEVEL_1DAY in
  security_ids result = ["A"; "B"; "A"; "C"]
  ∧ ¬ (Z.of_nat (length result) ≤ LimitSelectorsComparator.limit two_selectors)
  ∧ ¬ (Z.of_nat (size (list_to_set (security_ids result) : gset string))
       ≤ LimitSelectorsComparator.limit two_selectors)
  ∧ ¬ NoDup (security_ids result).
Proof.
  assert (security_ids (LimitSelectorsComparator.make_decision two_selectors 0 LEVEL_1DAY)
          = ["A"; "B"; "A"; "C"]) as Hids by (vm_compute; reflexivity).
  cbv zeta. rewrite Hids. split; [done |]. split; [| split].
  - rewrite <- (length_fmap security_id). fold (security_ids
      (LimitSelectorsComparator.make_decision two_selectors 0 LEVEL_1DAY)).
    rewrite Hids. simpl. lia.
  - assert (size (list_to_set ["A"; "B"; "A"; "C"] : gset string) = 3%nat) as ->
      by (vm_compute; reflexivity).
    simpl. lia.
  - intros H. apply NoDup_cons in H as [H _]. apply H. set_solver.
Qed.

(** C3, as amended: the sort and the cut to [limit] rows are applied to
    each matching selector's list on its own and the results are
    concatenated in the order of the selectors; when exactly one selector
    has the queried level this is the reference algorithm, and scenario 1
    yields [B, A]. *)
Theorem make_decision_sorts_and_cuts_each_selector
    (self : LimitSelectorsComparator.t) (ts : timestamp) (lvl : TradingLevel) :
  LimitSelectorsComparator.make_decision self ts lvl
  = concat ((fun s => keep_first (LimitSelectorsComparator.limit self)
                        (sort_values (get_targets s ts)))
              <$> matching_selectors self lvl)
  ∧ (∀ s, matching_selectors self lvl = [s] →
          LimitSelectorsComparator.make_decision self ts lvl
          = make_decision_reference self ts lvl)
  ∧ security_ids (LimitSelectorsComparator.make_decision scenario1 ts LEVEL_1DAY)
    = ["B"; "A"].
Proof.
  split; [| split].
  - rewrite make_decision_blocks. f_equal.
    apply list_fmap_ext. intros _ s _. apply selector_rows_keep_first.
  - intros s Hs. rewrite make_decision_blocks. unfold make_decision_reference.
    rewrite Hs. csimpl. rewrite !app_nil_r. apply selector_rows_keep_first.
  - vm_compute. reflexivity.
Qed.

(** Scenario 1 has one selector on the day level. *)
Lemma make_decision_sorts_and_cuts_each_selector_witness :
  matching_selectors scenario1 LEVEL_1DAY = [scenario1_selector]
  ∧ LimitSelectorsComparator.make_decision scenario1 0 LEVEL_1DAY
    = make_decision_reference scenario1 0 LEVEL_1DAY.
Proof.
  split; [reflexivity |].
  destruct (make_decision_sorts_and_cuts_each_selector scenario1 0 LEVEL_1DAY)
    as (_ & Hone & _).
  apply (Hone scenario1_selector).
  reflexivity.
Defined.

(** C3, as stated, fails when a second selector shares the level: the code
    keeps [B, A] of the first selector and appends [D]; the reference
    algorithm sorts the four rows together and keeps [D, B]. *)
Lemma make_decision_differs_from_reference :
  security_ids (LimitSelectorsComparator.make_decision scenario1_and_one 0 LEVEL_1DAY)
  = ["B"; "A"; "D"]
  ∧ security_ids (make_decision_reference scenario1_and_one 0 LEVEL_1DAY) = ["D"; "B"]
  ∧ LimitSelectorsComparator.make_decision scenario1_and_one 0 LEVEL_1DAY
    ≠ make_decision_reference scenario1_and_one 0 LEVEL_1DAY.
Proof.
  split; [vm_compute; reflexivity |]. split; [vm_compute; reflexivity |].
  intros H. apply (f_equal security_ids) in H. vm_compute in H. discriminate.
Qed.

(** ** TargetsSlot *)

(** Two members of the enumeration with the same value are the same
    member. *)
Lemma value_inj (l1 l2 : TradingLevel) : value l1 = value l2 → l1 = l2.
Proof. destruct l1, l2; simpl; congruence. Qed.

(** C6: after [input_targets(L, A)] then [input_targets(L, B)],
    [get_targets(L)] is [B], whatever the slot held before and whatever
    [A] was. *)
Theorem input_targets_last_write_wins
    (slot : TargetsSlot.t) (L : TradingLevel) (A B : py_targets) :
  TargetsSlot.get_targets
    (TargetsSlot.input_targets (TargetsSlot.input_targets slot L A) L B) L
  = Some B.
Proof.
  unfold TargetsSlot.get_targets, TargetsSlot.input_targets; simpl.
  apply lookup_insert_eq.
Qed.

(** C9: [input_targets(L, T)] leaves the entry of every other level [L']
    as it was. *)
Theorem input_targets_frame
    (slot : TargetsSlot.t) (L L' : TradingLevel) (T : py_targets) :
  L ≠ L' →
  TargetsSlot.get_targets (TargetsSlot.input_targets slot L T) L'
  = TargetsSlot.get_targets slot L'.
Proof.
  intros Hne.
  unfold TargetsSlot.get_targets, TargetsSlot.input_targets; simpl.
  apply lookup_insert_ne.
  intros Hv. apply Hne, value_inj, Hv.
Qed.

(** Writing the day level of scenario 2 leaves its five-minute entry. *)
Lemma input_targets_frame_witness :
  LEVEL_1DAY ≠ LEVEL_5MIN
  ∧ TargetsSlot.get_targets
      (TargetsSlot.input_targets slot_scenario2 LEVEL_1DAY PyEmptyDict) LEVEL_5MIN
    = TargetsSlot.get_targets slot_scenario2 LEVEL_5MIN.
Proof.
  split; [discriminate |].
  apply (input_targets_frame slot_scenario2 LEVEL_1DAY LEVEL_5MIN PyEmptyDict).
  discriminate.
Defined.

(** ** Consensus: handle_targets_slot *)

(** [if not targets: targets = set()] leaves the set of a truthy entry and
    turns everything else into the empty set. *)
Lemma normalized_targets (o : option py_targets) :
  (if negb (truthy o) then ∅ else Trader.as_set o) = Trader.as_set o.
Proof.
  destruct o as [[s |] |]; simpl; try done.
  case_bool_decide; simpl; congruence.
Qed.

Lemma selected_step_None (slot : TargetsSlot.t) (lvl : TradingLevel) :
  Trader.selected_step slot None lvl = Some (cached slot lvl).
Proof. unfold Trader.selected_step, cached. by rewrite normalized_targets. Qed.

(** A non-empty running set is intersected with the level's set. *)
Lemma selected_step_nonempty (slot : TargetsSlot.t) (s : gset string) (lvl : TradingLevel) :
  s ≠ ∅ → Trader.selected_step slot (Some s) lvl = Some (s ∩ cached slot lvl).
Proof.
  intros Hs. unfold Trader.selected_step, cached. rewrite normalized_targets.
  simpl. unfold truthy_set. by rewrite bool_decide_eq_false_2.
Qed.

(** An empty running set is dropped: the level's set takes its place. *)
Lemma selected_step_empty (slot : TargetsSlot.t) (lvl : TradingLevel) :
  Trader.selected_step slot (Some ∅) lvl = Some (cached slot lvl).
Proof. unfold Trader.selected_step, cached. by rewrite normalized_targets. Qed.

Lemma consensus_fold_nonempty (slot : TargetsSlot.t) (levels : list TradingLevel) :
  ∀ acc, running_nonempty slot acc levels →
    fold_left (Trader.selected_step slot) levels (Some acc)
    = Some (fold_left (fun acc l => acc ∩ cached slot l) levels acc).
Proof.
  induction levels as [| l levels IH]; intros acc Hrun; cbn [fold_left]; [done |].
  destruct Hrun as [Hacc Hrun].
  rewrite selected_step_nonempty by done. by apply IH.
Qed.

(** As long as no running intersection that still has a level to meet is
    empty, the loop computes the intersection of the cached sets. *)
Lemma consensus_is_intersection (self : Trader.t) (lvl : TradingLevel)
    (rest : list TradingLevel) :
  Trader.trading_level_desc self = lvl :: rest →
  running_nonempty (Trader.targets_slot self) (cached (Trader.targets_slot self) lvl) rest →
  Trader.consensus self
  = consensus_reference (Trader.targets_slot self) (Trader.trading_level_desc self).
Proof.
  intros Hlevels Hrun. unfold Trader.consensus. rewrite Hlevels.
  cbn [fold_left consensus_reference]. rewrite selected_step_None. by apply consensus_fold_nonempty.
Qed.

(** Scenario 2 of the specification. *)
Example consensus_scenario2 :
  Trader.consensus
    (trader_with [LEVEL_1DAY; LEVEL_5MIN] slot_scenario2 [] (account_empty 0))
  = Some {["Y"]}.
Proof. vm_compute. reflexivity. Qed.

(** C1 on the code, where the coarsest level decided nothing and the
    finest decided [Y]: the running set is empty after the day level, the
    loop takes the five-minute set in its place, and an open-long signal
    for [Y] goes out; the intersection of the two cached sets is empty. *)
Theorem consensus_replaces_empty_running_set :
  let self := trader_with [LEVEL_1DAY; LEVEL_5MIN] slot_day_empty [0%nat]
                          (account_empty 10000) in
  cached slot_day_empty LEVEL_1DAY = ∅
  ∧ cached slot_day_empty LEVEL_5MIN = {["Y"]}
  ∧ Trader.consensus self = Some {["Y"]}
  ∧ consensus_reference slot_day_empty [LEVEL_1DAY; LEVEL_5MIN] = Some ∅
  ∧ signalled trading_signal_open_long (snd <$> Trader.handle_targets_slot self 0)
    = {["Y"]}.
Proof.
  cbv zeta. repeat split; vm_compute; reflexivity.
Qed.

(** The same with three levels whose decisions are pairwise disjoint: the
    intersection is empty after the second level and the third level's set
    becomes the consensus. *)
Example consensus_disjoint_levels :
  Trader.consensus
    (trader_with [LEVEL_1DAY; LEVEL_1HOUR; LEVEL_5MIN] slot_disjoint [] (account_empty 0))
  = Some {["Z"]}
  ∧ consensus_reference slot_disjoint [LEVEL_1DAY; LEVEL_1HOUR; LEVEL_5MIN] = Some ∅.
Proof. split; vm_compute; reflexivity. Qed.

(** ** Signal emission: send_trading_signals *)

Section Signals.

Variable lvl : TradingLevel.
Variable account : Account.
Variable ts : timestamp.

#[local] Abbreviation open_long money :=
  (fun id => TradingSignal.mk id ts trading_signal_open_long lvl (Some money) None).
#[local] Abbreviation close_long :=
  (fun id => TradingSignal.mk id ts trading_signal_close_long lvl None (Some 1%float)).

(** The two loops, whatever [selected] is: open-long signals over
    [S \ H] with the equal-weight amount, then close-long signals over the
    holdings that are left out ([S] being empty for [None]). *)
Lemma trading_signals_shape (selected : option (gset string)) :
  let S := default ∅ selected in
  let H := holdings account in
  Trader.trading_signals lvl account ts selected
  = (open_long (cash account * (1 / float_of_len (size (S ∖ H))))%float
       <$> elements (S ∖ H))
    ++ (close_long <$> elements (if bool_decide (S = ∅) then H else H ∖ S)).
Proof.
  cbv zeta. unfold Trader.trading_signals, Trader.truthy_selected, truthy_set.
  fold (holdings account).
  destruct selected as [s |]; simpl.
  - case_bool_decide as Hs; simpl.
    + subst s. by rewrite empty_difference_L, elements_empty.
    + case_bool_decide as Hl; simpl; [| done].
      rewrite Hl. by rewrite elements_empty.
  - by rewrite empty_difference_L, elements_empty.
Qed.

Lemma signalled_app (kind : TradingSignalType) (l1 l2 : list TradingSignal.t) :
  signalled kind (l1 ++ l2) = signalled kind l1 ∪ signalled kind l2.
Proof.
  unfold signalled. by rewrite List.filter_app, fmap_app, list_to_set_app_L.
Qed.

Lemma signalled_same (kind : TradingSignalType) (f : string → TradingSignal.t)
    (X : gset string) :
  (∀ id, TradingSignal.security_id (f id) = id) →
  (∀ id, TradingSignal.trading_signal_type (f id) = kind) →
  signalled kind (f <$> elements X) = X.
Proof.
  intros Hid Hkind. unfold signalled.
  assert (∀ l : list string,
    TradingSignal.security_id
      <$> List.filter (fun sig => bool_decide (TradingSignal.trading_signal_type sig = kind))
                      (f <$> l) = l) as Hl.
  { induction l as [| x l IH]; csimpl; [done |].
    rewrite bool_decide_eq_true_2 by apply Hkind. csimpl. by rewrite Hid, IH. }
  rewrite Hl. apply list_to_set_elements_L.
Qed.

Lemma signalled_other (kind : TradingSignalType) (f : string → TradingSignal.t)
    (l : list string) :
  (∀ id, TradingSignal.trading_signal_type (f id) ≠ kind) →
  signalled kind (f <$> l) = ∅.
Proof.
  intros Hkind. unfold signalled.
  induction l as [| x l IH]; csimpl; [done |].
  rewrite bool_decide_eq_false_2 by apply Hkind. apply IH.
Qed.

(** With one listener registered, the calls carry exactly the signals, in
    order. *)
Lemma dispatch_single (listener : Listener) (signals : list TradingSignal.t) :
  snd <$> Trader.dispatch [listener] signals = signals.
Proof.
  unfold Trader.dispatch. induction signals as [| sig signals IH]; [done |].
  simpl. f_equal. exact IH.
Qed.

(** A call [listener.on_trading_signal(signal)] happens exactly for the
    signals built and the listeners registered. *)
Lemma dispatch_calls (listeners : list Listener) (signals : list TradingSignal.t)
    (listener : Listener) (signal : TradingSignal.t) :
  (listener, signal) ∈ Trader.dispatch listeners signals
  ↔ signal ∈ signals ∧ listener ∈ listeners.
Proof.
  unfold Trader.dispatch. rewrite list_elem_of_In, in_flat_map. split.
  - intros (sig & Hsig & Hcall). apply list_elem_of_In in Hsig, Hcall.
    apply list_elem_of_fmap in Hcall as (l & Heq & Hl). by simplify_eq.
  - intros [Hsig Hl]. exists signal. rewrite <- !list_elem_of_In. split; [done |].
    apply list_elem_of_fmap. by exists listener.
Qed.

(** What [run] stores for a level is read back by the consensus loop as
    the set of the decided ids, the empty decision as the empty set. *)
Lemma decided_targets_as_set (df : DataFrame) :
  Trader.as_set (Some (Trader.decided_targets df)) = list_to_set (security_ids df).
Proof. by destruct df. Qed.

End Signals.

Lemma elem_of_holdings (account : Account) (id : string) :
  id ∈ holdings account
  ↔ ∃ p, p ∈ positions account ∧ position_security_id p = id
         ∧ PrimFloat.ltb 0 (available_long p) = true.
Proof.
  unfold holdings, Trader.current_holdings.
  rewrite elem_of_list_to_set, list_elem_of_fmap. split.
  - intros (p & -> & Hp). apply list_elem_of_In, filter_In in Hp as [Hp Hav].
    exists p. by rewrite list_elem_of_In.
  - intros (p & Hp & <- & Hav). exists p. split; [done |].
    apply list_elem_of_In, filter_In. by rewrite <- list_elem_of_In.
Qed.

Lemma elem_of_signalled (kind : TradingSignalType) (signals : list TradingSignal.t)
    (id : string) :
  id ∈ signalled kind signals
  ↔ ∃ sig, sig ∈ signals ∧ TradingSignal.trading_signal_type sig = kind
           ∧ TradingSignal.security_id sig = id.
Proof.
  unfold signalled. rewrite elem_of_list_to_set, list_elem_of_fmap. split.
  - intros (sig & -> & Hsig). apply list_elem_of_In, filter_In in Hsig as [Hsig Hkind].
    apply bool_decide_eq_true in Hkind. exists sig. by rewrite list_elem_of_In.
  - intros (sig & Hsig & Hkind & <-). exists sig. split; [done |].
    apply list_elem_of_In, filter_In. rewrite <- list_elem_of_In.
    split; [done | by apply bool_decide_eq_true].
Qed.

(** A registered listener is handed every signal that is built. *)
Lemma elem_of_received_dispatch (listeners : list Listener)
    (signals : list TradingSignal.t) (listener : Listener) (sig : TradingSignal.t) :
  listener ∈ listeners →
  sig ∈ received listener (Trader.dispatch listeners signals) ↔ sig ∈ signals.
Proof.
  intros Hl. unfold received. rewrite list_elem_of_fmap. split.
  - intros ([l sig'] & -> & Hcall). apply list_elem_of_filter in Hcall as [_ Hcall].
    by apply dispatch_calls in Hcall as [Hsig _].
  - intros Hsig. exists (listener, sig). split; [done |].
    apply list_elem_of_filter. split; [done |]. by apply dispatch_calls.
Qed.

Lemma signalled_received (kind : TradingSignalType) (listeners : list Listener)
    (signals : list TradingSignal.t) (listener : Listener) :
  listener ∈ listeners →
  signalled kind (received listener (Trader.dispatch listeners signals))
  = signalled kind signals.
Proof.
  intros Hl. apply set_eq. intros id. rewrite !elem_of_signalled.
  split; intros (sig & Hsig & Hrest); exists sig; split; try done;
    by apply (elem_of_received_dispatch listeners signals listener sig Hl).
Qed.

(** C4: let [S] be the consensus passed to [send_trading_signals] ([None]
    counting as empty) and [H] the set of the instruments the account
    shows a position with [available_long > 0] in.  The instruments for
    which an open-long signal is built are [S \ H], those for which a
    close-long signal is built are [H \ S], or all of [H] when [S] is
    empty, and no instrument gets both; every registered listener is
    handed signals for exactly these instruments. *)
Theorem signals_partition_exact
    (self : Trader.t) (ts : timestamp) (selected : option (gset string))
    (H : gset string) :
  (∀ id, id ∈ H ↔ held_long (latest_account (Trader.account_service self)) id) →
  let S := default ∅ selected in
  let partition_exact (signals : list TradingSignal.t) :=
    signalled trading_signal_open_long signals = S ∖ H
    ∧ signalled trading_signal_close_long signals
      = (if bool_decide (S = ∅) then H else H ∖ S)
    ∧ signalled trading_signal_open_long signals
      ## signalled trading_signal_close_long signals in
  partition_exact
    (Trader.trading_signals (Trader.trading_level self)
       (latest_account (Trader.account_service self)) ts selected)
  ∧ ∀ listener, listener ∈ Trader.trading_signal_listeners self →
      partition_exact (received listener (Trader.send_trading_signals self ts selected)).
Proof.
  intros Hheld. cbv zeta.
  assert (H = holdings (latest_account (Trader.account_service self))) as ->.
  { apply set_eq. intros id. rewrite Hheld, elem_of_holdings. by unfold held_long. }
  assert (signalled trading_signal_open_long
            (Trader.trading_signals (Trader.trading_level self)
               (latest_account (Trader.account_service self)) ts selected)
          = default ∅ selected ∖ holdings (latest_account (Trader.account_service self))
          ∧ signalled trading_signal_close_long
              (Trader.trading_signals (Trader.trading_level self)
                 (latest_account (Trader.account_service self)) ts selected)
            = (if bool_decide (default ∅ selected = ∅)
               then holdings (latest_account (Trader.account_service self))
               else holdings (latest_account (Trader.account_service self))
                    ∖ default ∅ selected)
          ∧ signalled trading_signal_open_long
              (Trader.trading_signals (Trader.trading_level self)
                 (latest_account (Trader.account_service self)) ts selected)
            ## signalled trading_signal_close_long
                 (Trader.trading_signals (Trader.trading_level self)
                    (latest_account (Trader.account_service self)) ts selected))
    as Hbuilt.
  { rewrite trading_signals_shape. cbv zeta.
    rewrite !signalled_app.
    rewrite (signalled_same trading_signal_open_long) by done.
    rewrite (signalled_other trading_signal_close_long) by done.
    rewrite (signalled_other trading_signal_open_long) by done.
    rewrite (signalled_same trading_signal_close_long) by done.
    case_bool_decide as HS; [rewrite HS |]; set_solver. }
  split; [exact Hbuilt |].
  intros listener Hl. unfold Trader.send_trading_signals.
  rewrite !signalled_received by done. exact Hbuilt.
Qed.

(** Scenario 3: consensus [Y], the account holds [X]; the account
    service, the one listener, is handed an open-long signal for [Y] and a
    close-long signal for [X]. *)
Lemma signals_partition_exact_witness :
  signalled trading_signal_open_long
    (received 0%nat
       (Trader.send_trading_signals
          (trader_with [LEVEL_1DAY; LEVEL_5MIN] slot_scenario2 [0%nat] account_scenario3)
          7 (Some {["Y"]})))
  = {["Y"]} ∖ {["X"]}.
Proof.
  assert (∀ id, id ∈ ({["X"]} : gset string)
                ↔ held_long
                    (latest_account
                       (Trader.account_service
                          (trader_with [LEVEL_1DAY; LEVEL_5MIN] slot_scenario2 [0%nat]
                                       account_scenario3))) id) as Hheld.
  { intros id. split.
    - intros Hid. apply elem_of_singleton in Hid as ->.
      exists (mkPosition "X" 100). split; [apply list_elem_of_singleton; reflexivity |].
      split; reflexivity.
    - intros (p & Hp & Hid & _). apply list_elem_of_singleton in Hp as ->.
      simpl in Hid. subst id. apply elem_of_singleton. reflexivity. }
  destruct (signals_partition_exact
              (trader_with [LEVEL_1DAY; LEVEL_5MIN] slot_scenario2 [0%nat]
                           account_scenario3)
              7 (Some {["Y"]}) {["X"]} Hheld) as [_ Hlisteners].
  destruct (Hlisteners 0%nat) as (Hopen & _).
  - apply list_elem_of_singleton. reflexivity.
  - exact Hopen.
Defined.

(** C8: an open-long signal carries [order_money] and no [position_pct];
    a close-long signal carries [position_pct = 1.0] and no
    [order_money]. *)
Theorem signals_carry_one_sizing_field
    (lvl : TradingLevel) (account : Account) (ts : timestamp)
    (selected : option (gset string)) :
  Forall
    (fun sig =>
       match TradingSignal.trading_signal_type sig with
       | trading_signal_open_long =>
           is_Some (TradingSignal.order_money sig) ∧ TradingSignal.position_pct sig = None
       | trading_signal_close_long =>
           TradingSignal.position_pct sig = Some 1%float
           ∧ TradingSignal.order_money sig = None
       end)
    (Trader.trading_signals lvl account ts selected).
Proof.
  rewrite trading_signals_shape. apply Forall_app. split.
  - apply Forall_fmap, Forall_forall. intros id _. simpl. eauto.
  - apply Forall_fmap, Forall_forall. intros id _. simpl. eauto.
Qed.

(** C5, as amended: every open-long signal of a tick carries the cash
    multiplied by the reciprocal of [k = |longed|], both operations in
    binary64 arithmetic: [cash * (1.0 / k)]. *)
Theorem open_long_order_money
    (lvl : TradingLevel) (account : Account) (ts : timestamp)
    (selected : option (gset string)) :
  let longed := default ∅ selected ∖ holdings account in
  Forall
    (fun sig =>
       TradingSignal.trading_signal_type sig = trading_signal_open_long →
       TradingSignal.order_money sig
       = Some (cash account * (1 / float_of_len (size longed)))%float)
    (Trader.trading_signals lvl account ts selected).
Proof.
  intros longed. rewrite trading_signals_shape. apply Forall_app. split.
  - apply Forall_fmap, Forall_forall. intros id _ _. reflexivity.
  - apply Forall_fmap, Forall_forall. intros id _. simpl. discriminate.
Qed.

(** Scenario 3 of the specification: consensus [Y], holdings [X], cash
    10000. *)
Example signals_scenario3 :
  Trader.trading_signals LEVEL_5MIN account_scenario3 7 (Some {["Y"]})
  = [TradingSignal.mk "Y" 7 trading_signal_open_long LEVEL_5MIN (Some 10000%float) None;
     TradingSignal.mk "X" 7 trading_signal_close_long LEVEL_5MIN None (Some 1%float)].
Proof. vm_compute. reflexivity. Qed.

(** Scenario 4 of the specification: an empty consensus closes every
    holding and opens nothing. *)
Example signals_scenario4 :
  let signals :=
    Trader.trading_signals LEVEL_5MIN
      (mkAccount 10000 [mkPosition "X" 100; mkPosition "Y" 200]) 7 (Some ∅) in
  signalled trading_signal_open_long signals = ∅
  ∧ signalled trading_signal_close_long signals = {["X"; "Y"]}
  ∧ length signals = 2%nat.
Proof. cbv zeta. repeat split; vm_compute; reflexivity. Qed.

(** The open-long signal of scenario 3 carries the whole cash. *)
Lemma open_long_order_money_witness :
  TradingSignal.order_money
    (TradingSignal.mk "Y" 7 trading_signal_open_long LEVEL_5MIN (Some 10000%float) None)
  = Some (10000 * (1 / float_of_len
                         (size ({["Y"]} ∖ holdings account_scenario3 : gset string))))%float.
Proof.
  pose proof (open_long_order_money LEVEL_5MIN account_scenario3 7 (Some {["Y"]})) as H.
  cbv zeta in H. rewrite signals_scenario3 in H.
  apply Forall_cons in H as [H _]. apply H. reflexivity.
Defined.

(** C5, as stated, fails for cash 10000 and three instruments to open:
    the signals carry [10000 * (1.0 / 3)], which is not the binary64
    quotient [10000 / 3]. *)
Lemma order_money_is_not_the_quotient :
  let signals :=
    Trader.trading_signals LEVEL_5MIN (account_empty 10000) 7 (Some {["A"; "B"; "C"]}) in
  size ({["A"; "B"; "C"]} ∖ holdings (account_empty 10000) : gset string) = 3%nat
  ∧ length signals = 3%nat
  ∧ Forall
      (fun sig =>
         TradingSignal.trading_signal_type sig = trading_signal_open_long
         ∧ TradingSignal.order_money sig = Some (10000 * (1 / 3))%float
         ∧ TradingSignal.order_money sig ≠ Some (10000 / float_of_len 3)%float)
      signals
  ∧ PrimFloat.eqb (10000 * (1 / 3)) (10000 / 3) = false.
Proof.
  cbv zeta. split; [vm_compute; reflexivity |]. split; [vm_compute; reflexivity |].
  split; [| vm_compute; reflexivity].
  apply Forall_forall. intros sig Hsig.
  assert (TradingSignal.trading_signal_type sig = trading_signal_open_long
          ∧ TradingSignal.order_money sig = Some (10000 * (1 / 3))%float) as [Hk Hm].
  { revert sig Hsig. apply Forall_forall. vm_compute. repeat constructor. }
  split; [done |]. split; [done |].
  rewrite Hm. intros Heq.
  apply (f_equal (fun o => match o with
                           | Some x => PrimFloat.eqb x (10000 / 3)
                           | None => false
                           end)) in Heq.
  vm_compute in Heq. discriminate.
Qed.

(** ** Listener registration *)

Lemma py_list_remove_absent (x : Listener) (l : list Listener) :
  x ∉ l → py_list_remove x l = l.
Proof.
  induction l as [| y l IH]; intros Hx; simpl; [done |].
  apply not_elem_of_cons in Hx as [Hne Hx].
  rewrite bool_decide_eq_false_2 by congruence. by rewrite IH.
Qed.

(** [list.remove] takes out the first occurrence and nothing else. *)
Lemma py_list_remove_first (x : Listener) (l : list Listener) :
  x ∈ l →
  ∃ before after,
    l = before ++ x :: after ∧ (x ∉ before) ∧ py_list_remove x l = before ++ after.
Proof.
  induction l as [| y l IH]; intros Hx; [by apply elem_of_nil in Hx |].
  simpl. case_bool_decide as Hy.
  - subst y. exists [], l. repeat split; [apply not_elem_of_nil].
  - apply elem_of_cons in Hx as [-> | Hx]; [done |].
    destruct (IH Hx) as (before & after & -> & Hb & ->).
    exists (y :: before), after. repeat split.
    apply not_elem_of_cons. split; [congruence | done].
Qed.

Lemma listeners_add_NoDup (l : list Listener) (x : Listener) :
  NoDup l → NoDup (Trader.listeners_add l x).
Proof.
  intros Hl. unfold Trader.listeners_add. case_bool_decide as Hx; [| done].
  apply NoDup_app. repeat split; [done | | apply NoDup_singleton].
  intros y Hy Hy'. apply list_elem_of_singleton in Hy'. by subst y.
Qed.

Lemma listeners_add_idem (l : list Listener) (x : Listener) :
  Trader.listeners_add (Trader.listeners_add l x) x = Trader.listeners_add l x.
Proof.
  unfold Trader.listeners_add. destruct (decide (x ∈ l)) as [Hin | Hn].
  - rewrite (bool_decide_eq_false_2 (x ∉ l)) by (by intros Hn).
    rewrite bool_decide_eq_false_2; [done | by intros Hn].
  - rewrite (bool_decide_eq_true_2 (x ∉ l)) by done.
    rewrite bool_decide_eq_false_2; [done |].
    intros Hn'. apply Hn', elem_of_app. right. by apply list_elem_of_singleton.
Qed.

(** C10: adding a listener already in the list changes nothing, adding a
    new one appends it at the end; removing an absent listener changes
    nothing, removing a present one takes out its first occurrence and
    keeps the order of the others, after which the listener is gone from a
    list without repetitions (the lists [add] builds). *)
Theorem listener_registration (self : Trader.t) (listener : Listener) :
  let listeners := Trader.trading_signal_listeners self in
  let added := Trader.trading_signal_listeners
                 (Trader.add_trading_signal_listener self listener) in
  let removed := Trader.trading_signal_listeners
                   (Trader.remove_trading_signal_listener self listener) in
  (listener ∈ listeners → added = listeners)
  ∧ (listener ∉ listeners → added = listeners ++ [listener])
  ∧ Trader.add_trading_signal_listener
      (Trader.add_trading_signal_listener self listener) listener
    = Trader.add_trading_signal_listener self listener
  ∧ (listener ∉ listeners → removed = listeners)
  ∧ (listener ∈ listeners →
     ∃ before after,
       listeners = before ++ listener :: after ∧ (listener ∉ before)
       ∧ removed = before ++ after)
  ∧ (NoDup listeners → listener ∉ removed)
  ∧ (NoDup listeners → NoDup added).
Proof.
  cbv zeta. simpl.
  unfold Trader.add_trading_signal_listener, Trader.with_listeners; simpl.
  unfold Trader.listeners_add, Trader.listeners_remove.
  repeat split.
  - intros Hin. rewrite bool_decide_eq_false_2; [done | by intros Hn].
  - intros Hn. by rewrite bool_decide_eq_true_2.
  - f_equal. apply listeners_add_idem.
  - intros Hn. by rewrite bool_decide_eq_false_2.
  - intros Hin. rewrite bool_decide_eq_true_2 by done.
    by apply py_list_remove_first.
  - intros Hnd. case_bool_decide as Hin; [| done].
    destruct (py_list_remove_first _ _ Hin) as (before & after & Hl & Hb & ->).
    rewrite Hl in Hnd. apply NoDup_app in Hnd as (_ & Hdisj & Hafter).
    apply NoDup_cons in Hafter as [Ha _].
    intros Hr. apply elem_of_app in Hr as [Hr | Hr]; done.
  - intros Hnd. by apply (listeners_add_NoDup _ listener) in Hnd.
Qed.

(** Adding a third listener to two, and adding the second one again. *)
Lemma listener_registration_witness :
  Trader.trading_signal_listeners
    (Trader.add_trading_signal_listener
       (trader_with [LEVEL_1DAY] TargetsSlot.init [0%nat; 1%nat] (account_empty 0)) 2%nat)
  = [0%nat; 1%nat; 2%nat]
  ∧ Trader.trading_signal_listeners
      (Trader.add_trading_signal_listener
         (trader_with [LEVEL_1DAY] TargetsSlot.init [0%nat; 1%nat] (account_empty 0)) 1%nat)
    = [0%nat; 1%nat].
Proof.
  split.
  - destruct (listener_registration
                (trader_with [LEVEL_1DAY] TargetsSlot.init [0%nat; 1%nat] (account_empty 0))
                2%nat) as (_ & Hnew & _).
    apply Hnew. apply (bool_decide_unpack _). vm_compute. exact I.
  - destruct (listener_registration
                (trader_with [LEVEL_1DAY] TargetsSlot.init [0%nat; 1%nat] (account_empty 0))
                1%nat) as (Hold & _).
    apply Hold. apply (bool_decide_unpack _). vm_compute. exact I.
Defined.

(** ** Construction *)

(** C7: the constructor raises [AssertionError] when the start or the end
    timestamp is missing, and when [real_time] is set and the end timestamp
    lies before the current time; no trader object comes into being, so no
    tick is processed.  The checks come before the account service is built
    and before the [init_selectors] hook runs, whatever that hook does. *)
Theorem init_rejects_bad_configuration
    (class_name : string) (now_pd_timestamp : timestamp)
    (init_selectors : option (list string) → string → list string →
                      option (list string) → timestamp → timestamp →
                      exn + list TargetSelector)
    (SimAccountService : string → timestamp → string → TradingLevel → AccountService)
    (sorted_levels : list TradingLevel → list TradingLevel)
    (a : Trader.args) :
  Trader.arg_start_timestamp a = None
  ∨ Trader.arg_end_timestamp a = None
  ∨ (Trader.arg_real_time a = true
     ∧ ∃ end_timestamp, Trader.arg_end_timestamp a = Some end_timestamp
                        ∧ end_timestamp < now_pd_timestamp) →
  Trader.__init__ class_name now_pd_timestamp init_selectors SimAccountService
                  sorted_levels a
  = inl AssertionError.
Proof.
  unfold Trader.__init__.
  intros [Hs | [He | (Hrt & e & He & Hlt)]].
  - by rewrite Hs.
  - rewrite He. by destruct (Trader.arg_start_timestamp a).
  - rewrite He, Hrt. destruct (Trader.arg_start_timestamp a); [| done].
    simpl. destruct (Z.leb_spec now_pd_timestamp e); [lia | done].
Qed.

(** Real-time mode, end timestamp 5, clock at 10. *)
Lemma init_rejects_bad_configuration_witness :
  Trader.__init__ "mytrader" 10 init_selectors_scenario1 sim_account_service id
                  args_real_time_end_5
  = inl AssertionError.
Proof.
  apply init_rejects_bad_configuration. right; right.
  split; [reflexivity |]. exists 5. split; reflexivity.
Defined.

(** The same arguments are accepted while the end timestamp is still
    ahead: the object exists, with the account service as its one
    listener.  With the hook of the base class the constructor gets past
    the checks and raises [NotImplementedError]. *)
Example init_accepts_future_end :
  (∃ self, Trader.__init__ "mytrader" 3 init_selectors_scenario1 sim_account_service id
                           args_real_time_end_5 = inr self
           ∧ Trader.trading_signal_listeners self = [0%nat]
           ∧ Trader.trading_level_desc self = [LEVEL_1DAY])
  ∧ Trader.__init__ "mytrader" 3 init_selectors_base sim_account_service id
                    args_real_time_end_5 = inl NotImplementedError.
Proof. split; [eexists; split; [reflexivity | split; reflexivity] | reflexivity]. Qed.

(** * Further properties *)

(** ** The order of the rows *)

Lemma score_compare_antisym (a b : float) :
  score_compare b a = CompOpp (score_compare a b).
Proof.
  unfold score_compare.
  destruct (PrimFloat.is_nan a), (PrimFloat.is_nan b); try reflexivity.
  rewrite !FloatAxioms.compare_spec.
  generalize (Prim2SF a) (Prim2SF b). clear a b. intros x y.
  destruct x as [sx | sx | | sx mx ex], y as [sy | sy | | sy my ey]; simpl;
    try reflexivity; try (by destruct sx); try (by destruct sy);
    try (by destruct sx, sy).
  destruct sx, sy; simpl; try reflexivity;
    rewrite (Z.compare_antisym ex ey); destruct (ex ?= ey); simpl; try reflexivity;
    rewrite (ZC4 my mx); by destruct (Pos.compare_cont Eq mx my).
Qed.

(** [is_nan] holds of the NaN of the IEEE model and of nothing else. *)
Lemma is_nan_Prim2SF (a : float) :
  PrimFloat.is_nan a = match Prim2SF a with S754_nan => true | _ => false end.
Proof.
  unfold PrimFloat.is_nan. rewrite FloatAxioms.eqb_spec. unfold SFeqb.
  destruct (Prim2SF a) as [s | s | | s m e]; simpl; try reflexivity.
  - by destruct s.
  - destruct s; rewrite Z.compare_refl, Pos.compare_cont_refl; reflexivity.
Qed.

Ltac compare_cases :=
  repeat match goal with
  | |- context [(?a ?= ?b)] => destruct (Z.compare_spec a b); simpl
  | |- context [Pos.compare_cont Eq ?a ?b] =>
      change (Pos.compare_cont Eq a b) with (Pos.compare a b) in *;
      destruct (Pos.compare_spec a b); simpl
  end.

Lemma score_compare_trans (a b c : float) :
  score_compare a b ≠ Gt → score_compare b c ≠ Gt →
  score_compare a c = before (score_compare a b) (score_compare b c).
Proof.
  unfold score_compare. rewrite !is_nan_Prim2SF, !FloatAxioms.compare_spec.
  generalize (Prim2SF a) (Prim2SF b) (Prim2SF c). clear a b c. intros x y z.
  destruct x as [sx | sx | | sx mx ex], y as [sy | sy | | sy my ey],
           z as [sz | sz | | sz mz ez]; simpl;
    try (destruct sx); try (destruct sy); try (destruct sz); simpl; try done;
    compare_cases; simpl; try done; try lia.
Qed.

Lemma ascii_compare_trans (a b c : Ascii.ascii) :
  Ascii.compare a b ≠ Gt → Ascii.compare b c ≠ Gt →
  Ascii.compare a c = before (Ascii.compare a b) (Ascii.compare b c).
Proof.
  unfold Ascii.compare.
  destruct (N.compare_spec (Ascii.N_of_ascii a) (Ascii.N_of_ascii b)) as [E1 | L1 | G1];
  destruct (N.compare_spec (Ascii.N_of_ascii b) (Ascii.N_of_ascii c)) as [E2 | L2 | G2];
  intros H1 H2; try done; simpl.
  - apply N.compare_eq_iff. congruence.
  - apply N.compare_lt_iff. lia.
  - apply N.compare_lt_iff. lia.
  - apply N.compare_lt_iff. lia.
Qed.

Lemma string_compare_trans (s1 : string) : ∀ s2 s3,
  String.compare s1 s2 ≠ Gt → String.compare s2 s3 ≠ Gt →
  String.compare s1 s3 = before (String.compare s1 s2) (String.compare s2 s3).
Proof.
  induction s1 as [| a s1 IH]; intros [| b s2] [| c s3]; simpl; try done.
  intros H1 H2.
  pose proof (ascii_compare_trans a b c) as Hasc.
  destruct (Ascii.compare a b) eqn:Eab; try done;
  destruct (Ascii.compare b c) eqn:Ebc; try done;
  rewrite Hasc by done; simpl; try done.
  - by apply IH.
  - by destruct (String.compare s1 s2).
Qed.

Lemma string_leb_trans (s1 s2 s3 : string) :
  String.leb s1 s2 = true → String.leb s2 s3 = true → String.leb s1 s3 = true.
Proof.
  unfold String.leb. intros H1 H2.
  rewrite (string_compare_trans s1 s2 s3).
  - by destruct (String.compare s1 s2), (String.compare s2 s3).
  - by destruct (String.compare s1 s2).
  - by destruct (String.compare s2 s3).
Qed.

(** The order [sort_values] sorts by is total and transitive, NaN scores
    included. *)
Lemma row_le_total : Total row_le.
Proof.
  intros r1 r2. unfold row_le, row_leb.
  rewrite (score_compare_antisym (score r1) (score r2)).
  destruct (score_compare (score r1) (score r2)); simpl; auto.
  apply String.leb_total.
Qed.

Lemma row_le_trans : Transitive row_le.
Proof.
  intros r1 r2 r3. unfold row_le, row_leb. intros H12 H23.
  rewrite (score_compare_trans (score r1) (score r2) (score r3)).
  - destruct (score_compare (score r1) (score r2)),
             (score_compare (score r2) (score r3)); simpl; try done.
    by apply (string_leb_trans _ (security_id r2)).
  - by destruct (score_compare (score r1) (score r2)).
  - by destruct (score_compare (score r2) (score r3)).
Qed.

Lemma sort_values_sorted (df : DataFrame) : StronglySorted row_le (sort_values df).
Proof.
  unfold sort_values.
  apply StronglySorted_merge_sort; [apply row_le_trans | apply row_le_total].
Qed.

(** ** More on LimitSelectorsComparator.make_decision *)

Lemma filter_level_idemp (lvl : TradingLevel) (sels : list TargetSelector) :
  List.filter (fun s => bool_decide (level s = lvl))
              (List.filter (fun s => bool_decide (level s = lvl)) sels)
  = List.filter (fun s => bool_decide (level s = lvl)) sels.
Proof.
  induction sels as [| s sels IH]; simpl; [done |].
  case_bool_decide as Hs; simpl; [| done].
  by rewrite bool_decide_eq_true_2, IH.
Qed.

(** X1: selectors of other levels have no part in the decision: the
    result is that of a comparator holding only the selectors of the
    queried level, and it is empty when no selector has that level. *)
Theorem make_decision_ignores_other_levels
    (self : LimitSelectorsComparator.t) (ts : timestamp) (lvl : TradingLevel) :
  LimitSelectorsComparator.make_decision self ts lvl
  = LimitSelectorsComparator.make_decision
      (LimitSelectorsComparator.mk (matching_selectors self lvl)
                                   (LimitSelectorsComparator.limit self)) ts lvl
  ∧ ((∀ s, s ∈ LimitSelectorsComparator.selectors self → level s ≠ lvl) →
     LimitSelectorsComparator.make_decision self ts lvl = []).
Proof.
  split.
  - rewrite !make_decision_blocks.
    replace (matching_selectors
               (LimitSelectorsComparator.mk (matching_selectors self lvl)
                                            (LimitSelectorsComparator.limit self)) lvl)
      with (matching_selectors self lvl)
      by (unfold matching_selectors; simpl; by rewrite filter_level_idemp).
    done.
  - intros Hnone. rewrite make_decision_blocks. unfold matching_selectors.
    induction (LimitSelectorsComparator.selectors self) as [| s sels IH]; [done |].
    simpl. rewrite bool_decide_eq_false_2 by (apply Hnone; left).
    apply IH. intros s' Hs'. apply Hnone. by right.
Qed.

(** The five-minute selector beside scenario 1 changes nothing at the day
    level, and a level without selector gets the empty frame. *)
Lemma make_decision_ignores_other_levels_witness :
  LimitSelectorsComparator.make_decision scenario1_with_5min 0 LEVEL_1DAY
  = LimitSelectorsComparator.make_decision scenario1 0 LEVEL_1DAY
  ∧ LimitSelectorsComparator.make_decision scenario1_with_5min 0 LEVEL_1HOUR = [].
Proof.
  split.
  - apply (proj1 (make_decision_ignores_other_levels scenario1_with_5min 0 LEVEL_1DAY)).
  - apply (proj2 (make_decision_ignores_other_levels scenario1_with_5min 0 LEVEL_1HOUR)).
    intros s Hs. apply (bool_decide_unpack _).
    repeat (apply elem_of_cons in Hs as [-> | Hs]; [reflexivity |]).
    by apply elem_of_nil in Hs.
Defined.

(** X2: every row of the decision is a row some selector of the queried
    level returned for the timestamp, and it occurs no more often than it
    was returned. *)
Theorem make_decision_rows_from_selectors
    (self : LimitSelectorsComparator.t) (ts : timestamp) (lvl : TradingLevel) :
  LimitSelectorsComparator.make_decision self ts lvl
  ⊆+ concat ((fun s => get_targets s ts) <$> matching_selectors self lvl).
Proof. rewrite make_decision_blocks. apply blocks_submseteq. Qed.

Lemma keep_first_within_limit (limit : Z) (df : DataFrame) :
  Z.of_nat (length df) ≤ limit → keep_first limit df = df.
Proof.
  intros Hlen. unfold keep_first.
  destruct (Z.gtb_spec (Z.of_nat (length df)) limit); [lia | done].
Qed.

(** X3: when no selector of the queried level returns more than [limit]
    rows, nothing is cut: the decision holds exactly the rows the
    selectors returned. *)
Theorem make_decision_within_limit
    (self : LimitSelectorsComparator.t) (ts : timestamp) (lvl : TradingLevel) :
  (∀ s, s ∈ matching_selectors self lvl →
        Z.of_nat (length (get_targets s ts)) ≤ LimitSelectorsComparator.limit self) →
  LimitSelectorsComparator.make_decision self ts lvl
  ≡ₚ concat ((fun s => get_targets s ts) <$> matching_selectors self lvl).
Proof.
  rewrite make_decision_blocks.
  induction (matching_selectors self lvl) as [| s sels IH]; intros Hlen; csimpl; [done |].
  apply Permutation_app.
  - rewrite selector_rows_keep_first, keep_first_within_limit.
    + unfold sort_values. apply merge_sort_Permutation.
    + rewrite sort_values_length. apply Hlen. left.
  - apply IH. intros s' Hs'. apply Hlen. by right.
Qed.

(** With the default limit of ten, the three rows of scenario 1 are all
    kept. *)
Lemma make_decision_within_limit_witness :
  LimitSelectorsComparator.make_decision scenario1_limit10 0 LEVEL_1DAY
  ≡ₚ get_targets scenario1_selector 0 ++ [].
Proof.
  apply (make_decision_within_limit scenario1_limit10 0 LEVEL_1DAY).
  intros s Hs. apply list_elem_of_singleton in Hs as ->. vm_compute. discriminate.
Defined.

(** X4: the rows a selector contributes are in ascending order of (score,
    security id), and they are the lowest of its frame: no row that was
    cut comes before a row that was kept. *)
Theorem selector_rows_lowest_sorted
    (self : LimitSelectorsComparator.t) (ts : timestamp) (s : TargetSelector) :
  let kept := LimitSelectorsComparator.selector_rows self ts s in
  StronglySorted row_le kept
  ∧ ∃ cut, get_targets s ts ≡ₚ kept ++ cut
           ∧ ∀ k c, k ∈ kept → c ∈ cut → row_le k c.
Proof.
  cbv zeta. rewrite selector_rows_keep_first.
  pose proof (sort_values_sorted (get_targets s ts)) as Hsorted.
  assert (sort_values (get_targets s ts) ≡ₚ get_targets s ts) as Hperm
    by apply merge_sort_Permutation.
  unfold keep_first. destruct (_ >? _).
  - rewrite <- (take_drop (Z.to_nat (LimitSelectorsComparator.limit self))
                          (sort_values (get_targets s ts))) in Hsorted, Hperm.
    split; [by apply StronglySorted_app_1_l in Hsorted |].
    eexists. split; [by rewrite Hperm |].
    intros k c. by apply StronglySorted_app_1_elem_of.
  - split; [done |]. exists []. split; [by rewrite app_nil_r |].
    intros k c _ Hc. by apply elem_of_nil in Hc.
Qed.

(** X5: with a limit of zero or below, every frame is cut to nothing and
    the decision is empty. *)
Theorem make_decision_nonpositive_limit
    (self : LimitSelectorsComparator.t) (ts : timestamp) (lvl : TradingLevel) :
  LimitSelectorsComparator.limit self ≤ 0 →
  LimitSelectorsComparator.make_decision self ts lvl = [].
Proof.
  intros Hlimit. rewrite make_decision_blocks.
  induction (matching_selectors self lvl) as [| s sels IH]; csimpl; [done |].
  rewrite IH, app_nil_r, selector_rows_keep_first. unfold keep_first.
  destruct (Z.gtb_spec (Z.of_nat (length (sort_values (get_targets s ts))))
                       (LimitSelectorsComparator.limit self)) as [Hgt | Hle].
  - replace (Z.to_nat (LimitSelectorsComparator.limit self)) with 0%nat by lia. done.
  - destruct (sort_values (get_targets s ts)); [done | simpl in Hle; lia].
Qed.

(** Scenario 1 with a limit of zero. *)
Lemma make_decision_nonpositive_limit_witness :
  LimitSelectorsComparator.make_decision scenario1_limit0 0 LEVEL_1DAY = [].
Proof. apply make_decision_nonpositive_limit. discriminate. Defined.

(** ** More on TargetsSlot *)

Lemma input_all_snoc (slot : TargetsSlot.t) (writes : list (TradingLevel * py_targets))
    (w : TradingLevel * py_targets) :
  input_all slot (writes ++ [w]) = TargetsSlot.input_targets (input_all slot writes) w.1 w.2.
Proof. unfold input_all. by rewrite fold_left_app. Qed.

(** X6: after any sequence of [input_targets] calls, [get_targets(L)] is
    what the last call for [L] wrote, and what the slot held before when no
    call was for [L]; on a new slot that is [None]. *)
Theorem get_targets_after_writes
    (slot : TargetsSlot.t) (writes : list (TradingLevel * py_targets)) (L : TradingLevel) :
  TargetsSlot.get_targets (input_all slot writes) L
  = match last (filter (fun w => w.1 = L) writes) with
    | Some w => Some w.2
    | None => TargetsSlot.get_targets slot L
    end
  ∧ TargetsSlot.get_targets TargetsSlot.init L = None.
Proof.
  split; [| apply lookup_empty].
  induction writes as [| w writes IH] using rev_ind; [done |].
  rewrite input_all_snoc, filter_app, last_app.
  destruct (decide (w.1 = L)) as [Hw | Hw].
  - rewrite filter_cons_True by done. simpl. rewrite <- Hw.
    unfold TargetsSlot.get_targets, TargetsSlot.input_targets; simpl.
    apply lookup_insert_eq.
  - rewrite filter_cons_False by done. simpl. rewrite <- IH.
    unfold TargetsSlot.get_targets, TargetsSlot.input_targets; simpl.
    apply lookup_insert_ne. intros Hv. by apply Hw, value_inj.
Qed.

(** X7: writes for two different levels can be made in either order. *)
Theorem input_targets_commute
    (slot : TargetsSlot.t) (L L' : TradingLevel) (A B : py_targets) :
  L ≠ L' →
  TargetsSlot.input_targets (TargetsSlot.input_targets slot L A) L' B
  = TargetsSlot.input_targets (TargetsSlot.input_targets slot L' B) L A.
Proof.
  intros Hne. unfold TargetsSlot.input_targets; simpl. f_equal.
  apply insert_insert_ne. intros Hv. by apply Hne, value_inj.
Qed.

(** The day and the five-minute entries of scenario 2, written in either
    order. *)
Lemma input_targets_commute_witness :
  TargetsSlot.input_targets
    (TargetsSlot.input_targets TargetsSlot.init LEVEL_1DAY (PySet {["X"; "Y"]}))
    LEVEL_5MIN (PySet {["Y"; "Z"]})
  = TargetsSlot.input_targets
      (TargetsSlot.input_targets TargetsSlot.init LEVEL_5MIN (PySet {["Y"; "Z"]}))
      LEVEL_1DAY (PySet {["X"; "Y"]}).
Proof. apply input_targets_commute. discriminate. Defined.

(** ** More on the consensus *)

Lemma selected_step_is_Some (slot : TargetsSlot.t) (selected : option (gset string))
    (lvl : TradingLevel) :
  ∃ s, Trader.selected_step slot selected lvl = Some s ∧ s ⊆ cached slot lvl.
Proof.
  destruct selected as [s |]; [| rewrite selected_step_None; eauto].
  destruct (decide (s = ∅)) as [-> | Hs].
  - rewrite selected_step_empty. eauto.
  - rewrite selected_step_nonempty by done. eexists. split; [done | set_solver].
Qed.

(** X8: the loop ends with [None] exactly when no level is configured;
    with at least one level the consensus is a set, and it lies within the
    cached set of the finest level. *)
Theorem consensus_within_finest_level (self : Trader.t) :
  (Trader.consensus self = None ↔ Trader.trading_level_desc self = [])
  ∧ ∀ lvl, last (Trader.trading_level_desc self) = Some lvl →
           ∃ s, Trader.consensus self = Some s
                ∧ s ⊆ cached (Trader.targets_slot self) lvl.
Proof.
  unfold Trader.consensus.
  assert (∀ lvl levels, last levels = Some lvl →
            ∃ s, fold_left (Trader.selected_step (Trader.targets_slot self)) levels None
                 = Some s ∧ s ⊆ cached (Trader.targets_slot self) lvl) as Hlast.
  { intros lvl levels Hl. apply last_Some in Hl as [levels' ->].
    rewrite fold_left_app. simpl. apply selected_step_is_Some. }
  split; [| intros lvl Hl; by apply Hlast].
  split.
  - intros Hnone. destruct (last (Trader.trading_level_desc self)) as [lvl |] eqn:Hl.
    + destruct (Hlast _ _ Hl) as (s & Hs & _). congruence.
    + by apply last_None in Hl.
  - by intros ->.
Qed.

(** Scenario 2: the consensus lies within the five-minute set. *)
Lemma consensus_within_finest_level_witness :
  ∃ s, Trader.consensus
         (trader_with [LEVEL_1DAY; LEVEL_5MIN] slot_scenario2 [] (account_empty 0))
       = Some s
       ∧ s ⊆ cached slot_scenario2 LEVEL_5MIN.
Proof.
  apply (proj2 (consensus_within_finest_level
                  (trader_with [LEVEL_1DAY; LEVEL_5MIN] slot_scenario2 []
                               (account_empty 0))) LEVEL_5MIN).
  reflexivity.
Defined.

Lemma consensus_fold_superset (slot : TargetsSlot.t) (levels : list TradingLevel) :
  ∀ (a r : gset string), r ⊆ a →
    ∃ s, fold_left (Trader.selected_step slot) levels (Some a) = Some s
         ∧ fold_left (fun acc l => acc ∩ cached slot l) levels r ⊆ s.
Proof.
  induction levels as [| l levels IH]; intros a r Hr; cbn [fold_left]; [eauto |].
  destruct (decide (a = ∅)) as [-> | Ha].
  - rewrite selected_step_empty. apply IH. set_solver.
  - rewrite selected_step_nonempty by done. apply IH. set_solver.
Qed.

(** X9: an instrument that is in the cached set of every configured level
    is in the consensus: the loop never loses a member of the
    intersection (it can only add to it, when an empty running set is
    replaced). *)
Theorem consensus_contains_intersection (self : Trader.t) (lvl : TradingLevel)
    (rest : list TradingLevel) :
  Trader.trading_level_desc self = lvl :: rest →
  ∃ s r, Trader.consensus self = Some s
         ∧ consensus_reference (Trader.targets_slot self) (lvl :: rest) = Some r
         ∧ r ⊆ s.
Proof.
  intros Hlevels. unfold Trader.consensus. rewrite Hlevels.
  cbn [fold_left consensus_reference]. rewrite selected_step_None.
  destruct (consensus_fold_superset (Trader.targets_slot self) rest
              (cached (Trader.targets_slot self) lvl)
              (cached (Trader.targets_slot self) lvl)) as (s & Hs & Hsub); [done |].
  eauto.
Qed.

(** The three disjoint levels: the intersection is empty, the consensus
    is not, and the first is within the second. *)
Lemma consensus_contains_intersection_witness :
  ∃ s r,
    Trader.consensus
      (trader_with [LEVEL_1DAY; LEVEL_1HOUR; LEVEL_5MIN] slot_disjoint [] (account_empty 0))
    = Some s
    ∧ consensus_reference slot_disjoint [LEVEL_1DAY; LEVEL_1HOUR; LEVEL_5MIN] = Some r
    ∧ r ⊆ s.
Proof.
  apply (consensus_contains_intersection
           (trader_with [LEVEL_1DAY; LEVEL_1HOUR; LEVEL_5MIN] slot_disjoint []
                        (account_empty 0)) LEVEL_1DAY [LEVEL_1HOUR; LEVEL_5MIN]).
  reflexivity.
Defined.

(** X10: the consensus reads the entries of the configured levels only:
    a write for a level that is not in [trading_level_desc] leaves it as it
    was. *)
Theorem consensus_frame (self : Trader.t) (L : TradingLevel) (T : py_targets) :
  L ∉ Trader.trading_level_desc self →
  Trader.consensus
    (Trader.with_targets_slot self
       (TargetsSlot.input_targets (Trader.targets_slot self) L T))
  = Trader.consensus self.
Proof.
  intros HL. unfold Trader.consensus. simpl.
  generalize (@None (gset string)).
  induction (Trader.trading_level_desc self) as [| l levels IH]; intros selected;
    cbn [fold_left]; [done |].
  apply not_elem_of_cons in HL as [Hne HL].
  rewrite <- (IH HL). f_equal.
  unfold Trader.selected_step. f_equal.
  unfold TargetsSlot.get_targets, TargetsSlot.input_targets; simpl.
  rewrite lookup_insert_ne; [done |]. intros Hv. by apply Hne, eq_sym, value_inj.
Qed.

(** An hour-level entry beside the day and five-minute levels of
    scenario 2. *)
Lemma consensus_frame_witness :
  Trader.consensus
    (Trader.with_targets_slot
       (trader_with [LEVEL_1DAY; LEVEL_5MIN] slot_scenario2 [] (account_empty 0))
       (TargetsSlot.input_targets slot_scenario2 LEVEL_1HOUR (PySet {["Q"]})))
  = Trader.consensus
      (trader_with [LEVEL_1DAY; LEVEL_5MIN] slot_scenario2 [] (account_empty 0)).
Proof.
  apply (consensus_frame
           (trader_with [LEVEL_1DAY; LEVEL_5MIN] slot_scenario2 [] (account_empty 0))
           LEVEL_1HOUR (PySet {["Q"]})).
  apply (bool_decide_unpack _). vm_compute. exact I.
Defined.

(** ** More on send_trading_signals *)

(** [shorted] is [H \ S] in both branches, [S] being empty in the second. *)
Lemma shorted_is_difference (S H : gset string) :
  (if bool_decide (S = ∅) then H else H ∖ S) = H ∖ S.
Proof. case_bool_decide as HS; [rewrite HS; set_solver | done]. Qed.

Lemma fmap_cancel {A B} (f : A → B) (g : B → A) (l : list A) :
  (∀ x, g (f x) = x) → g <$> (f <$> l) = l.
Proof.
  intros Hgf. induction l as [| x l IH]; csimpl; [done |]. by rewrite Hgf, IH.
Qed.

Lemma signal_ids (lvl : TradingLevel) (account : Account) (ts : timestamp)
    (selected : option (gset string)) :
  TradingSignal.security_id <$> Trader.trading_signals lvl account ts selected
  = elements (default ∅ selected ∖ holdings account)
    ++ elements (holdings account ∖ default ∅ selected).
Proof.
  rewrite trading_signals_shape. cbv zeta. rewrite shorted_is_difference.
  rewrite fmap_app. by rewrite !fmap_cancel.
Qed.

(** X11: an instrument gets at most one signal in a tick, and it gets one
    exactly when its position has to change: selected and not held, or
    held and not selected. *)
Theorem one_signal_per_changed_instrument
    (lvl : TradingLevel) (account : Account) (ts : timestamp)
    (selected : option (gset string)) :
  let ids := TradingSignal.security_id <$> Trader.trading_signals lvl account ts selected in
  NoDup ids
  ∧ ∀ id, id ∈ ids ↔ (id ∈ default ∅ selected ∧ id ∉ holdings account)
                     ∨ (id ∈ holdings account ∧ id ∉ default ∅ selected).
Proof.
  cbv zeta. rewrite signal_ids. split.
  - apply NoDup_app. repeat split; try apply NoDup_elements.
    intros id. rewrite !elem_of_elements. set_solver.
  - intros id. rewrite elem_of_app, !elem_of_elements. set_solver.
Qed.

Lemma dispatch_app (listeners : list Listener) (s1 s2 : list TradingSignal.t) :
  Trader.dispatch listeners (s1 ++ s2)
  = Trader.dispatch listeners s1 ++ Trader.dispatch listeners s2.
Proof. unfold Trader.dispatch. apply flat_map_app. Qed.

(** X12: in the sequence of [on_trading_signal] calls that
    [send_trading_signals] makes, every signal carries the timestamp passed
    in and the trading level of the trader, and every call with an
    open-long signal comes before the first call with a close-long
    signal. *)
Theorem signals_stamped_and_ordered
    (self : Trader.t) (ts : timestamp) (selected : option (gset string)) :
  ∃ opened closed,
    Trader.send_trading_signals self ts selected = opened ++ closed
    ∧ Forall (fun call : Listener * TradingSignal.t =>
                TradingSignal.trading_signal_type call.2 = trading_signal_open_long
                ∧ TradingSignal.the_timestamp call.2 = ts
                ∧ TradingSignal.trading_level call.2 = Trader.trading_level self) opened
    ∧ Forall (fun call : Listener * TradingSignal.t =>
                TradingSignal.trading_signal_type call.2 = trading_signal_close_long
                ∧ TradingSignal.the_timestamp call.2 = ts
                ∧ TradingSignal.trading_level call.2 = Trader.trading_level self) closed.
Proof.
  unfold Trader.send_trading_signals. rewrite trading_signals_shape. cbv zeta.
  rewrite dispatch_app. eexists _, _. split; [reflexivity |].
  split; apply Forall_forall; intros [l sig] Hcall;
    apply dispatch_calls in Hcall as [Hsig _];
    apply list_elem_of_fmap in Hsig as (id & -> & _); done.
Qed.

Lemma filter_listener_present (l : Listener) (sig : TradingSignal.t)
    (listeners : list Listener) :
  l ∈ listeners → NoDup listeners →
  filter (fun c : Listener * TradingSignal.t => c.1 = l)
         ((fun l' => (l', sig)) <$> listeners)
  = [(l, sig)].
Proof.
  induction listeners as [| l' listeners IH]; intros Hin Hnd.
  - by apply elem_of_nil in Hin.
  - apply NoDup_cons in Hnd as [Hl' Hnd]. csimpl.
    destruct (decide (l' = l)) as [-> | Hne].
    + rewrite filter_cons_True by done. f_equal.
      clear IH Hin Hnd. induction listeners as [| l'' listeners IH]; csimpl; [done |].
      apply not_elem_of_cons in Hl' as [Hne Hl'].
      rewrite filter_cons_False by (simpl; congruence). by apply IH.
    + rewrite filter_cons_False by done. apply IH; [| done].
      apply elem_of_cons in Hin as [-> | Hin]; done.
Qed.

(** X13: every signal is handed to every listener: there are
    [|signals| * |listeners|] calls, one signal reaches the listeners in
    registration order, and each listener of a list without repetitions
    receives exactly the signals, in the order they were built. *)
Theorem dispatch_to_each_listener
    (listeners : list Listener) (signals : list TradingSignal.t) :
  length (Trader.dispatch listeners signals) = (length signals * length listeners)%nat
  ∧ (∀ signal, (fun c => c.1) <$> Trader.dispatch listeners [signal] = listeners)
  ∧ ∀ l, l ∈ listeners → NoDup listeners →
         (fun c => c.2) <$> filter (fun c => c.1 = l) (Trader.dispatch listeners signals)
         = signals.
Proof.
  unfold Trader.dispatch. split; [| split].
  - induction signals as [| sig signals IH]; simpl; [done |].
    by rewrite length_app, length_fmap, IH.
  - intros sig. simpl. rewrite app_nil_r. by apply fmap_cancel.
  - intros l Hin Hnd. induction signals as [| sig signals IH]; simpl; [done |].
    rewrite filter_app, fmap_app, IH, filter_listener_present by done. done.
Qed.

(** Two listeners, the two signals of scenario 3. *)
Lemma dispatch_to_each_listener_witness :
  (fun c => c.2)
    <$> filter (fun c => c.1 = 1%nat)
          (Trader.dispatch [0%nat; 1%nat]
             (Trader.trading_signals LEVEL_5MIN account_scenario3 7 (Some {["Y"]})))
  = Trader.trading_signals LEVEL_5MIN account_scenario3 7 (Some {["Y"]}).
Proof.
  apply (proj2 (proj2 (dispatch_to_each_listener [0%nat; 1%nat]
           (Trader.trading_signals LEVEL_5MIN account_scenario3 7 (Some {["Y"]}))))).
  - apply (bool_decide_unpack _). vm_compute. exact I.
  - apply (bool_decide_unpack _). vm_compute. exact I.
Defined.

(** X14: only positions with [available_long > 0] count as held: a
    selected instrument whose positions all have nothing available is
    treated as not held and gets an open-long signal. *)
Theorem unavailable_position_is_opened
    (lvl : TradingLevel) (account : Account) (ts : timestamp)
    (S : gset string) (id : string) :
  id ∈ S →
  (∀ p, p ∈ positions account → position_security_id p = id →
        PrimFloat.ltb 0 (available_long p) = false) →
  id ∈ signalled trading_signal_open_long
         (Trader.trading_signals lvl account ts (Some S)).
Proof.
  intros HS Hnone. rewrite trading_signals_shape. cbv zeta.
  rewrite signalled_app, (signalled_same trading_signal_open_long) by done.
  apply elem_of_union. left. apply elem_of_difference. split; [done |].
  rewrite elem_of_holdings. intros (p & Hp & Hid & Hav).
  rewrite (Hnone p Hp Hid) in Hav. discriminate.
Qed.

(** [X] is selected and its one position has nothing available. *)
Lemma unavailable_position_is_opened_witness :
  "X" ∈ signalled trading_signal_open_long
          (Trader.trading_signals LEVEL_5MIN (mkAccount 10000 [mkPosition "X" 0]) 7
             (Some {["X"]})).
Proof.
  apply unavailable_position_is_opened.
  - apply elem_of_singleton. reflexivity.
  - intros p Hp _. apply list_elem_of_singleton in Hp as ->. reflexivity.
Defined.

(** ** More on the listener list *)

Lemma py_list_remove_last (x : Listener) (l : list Listener) :
  x ∉ l → py_list_remove x (l ++ [x]) = l.
Proof.
  induction l as [| y l IH]; intros Hx; simpl.
  - by rewrite bool_decide_eq_true_2.
  - apply not_elem_of_cons in Hx as [Hne Hx].
    rewrite bool_decide_eq_false_2 by congruence. by rewrite IH.
Qed.

(** X15: removing a listener right after adding it gives the trader back
    as it was, when the listener was not registered before. *)
Theorem add_then_remove_listener (self : Trader.t) (listener : Listener) :
  listener ∉ Trader.trading_signal_listeners self →
  Trader.remove_trading_signal_listener
    (Trader.add_trading_signal_listener self listener) listener
  = self.
Proof.
  intros Hn. destruct self.
  unfold Trader.remove_trading_signal_listener, Trader.add_trading_signal_listener,
    Trader.with_listeners, Trader.listeners_add, Trader.listeners_remove; simpl in *.
  f_equal. rewrite (bool_decide_eq_true_2 (listener ∉ _)) by done.
  rewrite bool_decide_eq_true_2.
  - by apply py_list_remove_last.
  - apply elem_of_app. right. by apply list_elem_of_singleton.
Qed.

(** Listener 2 added to the listeners 0 and 1, and removed again. *)
Lemma add_then_remove_listener_witness :
  Trader.remove_trading_signal_listener
    (Trader.add_trading_signal_listener
       (trader_with [LEVEL_1DAY] TargetsSlot.init [0%nat; 1%nat] (account_empty 0)) 2%nat)
    2%nat
  = trader_with [LEVEL_1DAY] TargetsSlot.init [0%nat; 1%nat] (account_empty 0).
Proof.
  apply add_then_remove_listener. apply (bool_decide_unpack _). vm_compute. exact I.
Defined.

(** X16: removing a registered listener shortens the list by one entry
    and keeps every other listener; a list without repetitions stays
    without repetitions. *)
Theorem remove_listener_keeps_others (self : Trader.t) (listener : Listener) :
  let listeners := Trader.trading_signal_listeners self in
  let removed := Trader.trading_signal_listeners
                   (Trader.remove_trading_signal_listener self listener) in
  (listener ∈ listeners → (length removed + 1 = length listeners)%nat)
  ∧ (∀ other, other ≠ listener → other ∈ removed ↔ other ∈ listeners)
  ∧ (NoDup listeners → NoDup removed).
Proof.
  cbv zeta. simpl. unfold Trader.listeners_remove.
  case_bool_decide as Hin; [| done].
  destruct (py_list_remove_first _ _ Hin) as (before & after & Hl & Hb & ->).
  rewrite Hl. split; [| split].
  - intros _. rewrite !length_app. simpl. lia.
  - intros other Hne. rewrite !elem_of_app, elem_of_cons. naive_solver.
  - intros Hnd. apply NoDup_app in Hnd as (Hnb & Hdisj & Hna).
    apply NoDup_cons in Hna as [_ Hna].
    apply NoDup_app. repeat split; [done | | done].
    intros x Hx Hx'. apply (Hdisj x Hx). by right.
Qed.

(** Listener 0 removed from the listeners 0 and 1. *)
Lemma remove_listener_keeps_others_witness :
  (length (Trader.trading_signal_listeners
             (Trader.remove_trading_signal_listener
                (trader_with [LEVEL_1DAY] TargetsSlot.init [0%nat; 1%nat] (account_empty 0))
                0%nat)) + 1 = 2)%nat.
Proof.
  apply (proj1 (remove_listener_keeps_others
                  (trader_with [LEVEL_1DAY] TargetsSlot.init [0%nat; 1%nat]
                               (account_empty 0)) 0%nat)).
  apply (bool_decide_unpack _). vm_compute. exact I.
Defined.

(** ** More on the consensus and the signals together *)

Lemma consensus_fold_all_empty (slot : TargetsSlot.t) (levels : list TradingLevel) :
  (∀ l, l ∈ levels → cached slot l = ∅) →
  ∀ selected, default ∅ selected = ∅ →
    default ∅ (fold_left (Trader.selected_step slot) levels selected) = ∅.
Proof.
  induction levels as [| l levels IH]; intros Hall selected Hsel; cbn [fold_left]; [done |].
  apply IH; [intros l' Hl'; apply Hall; by right |].
  destruct selected as [s |]; simpl in Hsel.
  - subst s. rewrite selected_step_empty. simpl. apply Hall. left.
  - rewrite selected_step_None. simpl. apply Hall. left.
Qed.

Lemma empty_consensus_signals (lvl : TradingLevel) (account : Account) (ts : timestamp)
    (selected : option (gset string)) :
  default ∅ selected = ∅ →
  signalled trading_signal_open_long (Trader.trading_signals lvl account ts selected) = ∅
  ∧ signalled trading_signal_close_long (Trader.trading_signals lvl account ts selected)
    = holdings account.
Proof.
  intros Hcons. rewrite trading_signals_shape. cbv zeta. rewrite Hcons.
  rewrite !signalled_app.
  rewrite (signalled_same trading_signal_open_long) by done.
  rewrite (signalled_other trading_signal_close_long) by done.
  rewrite (signalled_other trading_signal_open_long) by done.
  rewrite (signalled_same trading_signal_close_long) by done.
  rewrite bool_decide_eq_true_2 by done. set_solver.
Qed.

(** X17: a tick on which no configured level has a decision in the slot
    (no entry yet, or an empty one) opens nothing and sends a close-long
    signal for every holding. *)
Theorem no_decision_closes_every_holding (self : Trader.t) (ts : timestamp) :
  (∀ l, l ∈ Trader.trading_level_desc self →
        cached (Trader.targets_slot self) l = ∅) →
  let signals :=
    Trader.trading_signals (Trader.trading_level self)
      (latest_account (Trader.account_service self)) ts (Trader.consensus self) in
  signalled trading_signal_open_long signals = ∅
  ∧ signalled trading_signal_close_long signals
    = holdings (latest_account (Trader.account_service self)).
Proof.
  intros Hall. cbv zeta. apply empty_consensus_signals.
  apply (consensus_fold_all_empty _ _ Hall None eq_refl).
Qed.

(** A new slot, the day and five-minute levels, the account of
    scenario 3: [X] is closed. *)
Lemma no_decision_closes_every_holding_witness :
  signalled trading_signal_close_long
    (Trader.trading_signals LEVEL_5MIN account_scenario3 7
       (Trader.consensus
          (trader_with [LEVEL_1DAY; LEVEL_5MIN] TargetsSlot.init [] account_scenario3)))
  = holdings account_scenario3.
Proof.
  apply (proj2 (no_decision_closes_every_holding
                  (trader_with [LEVEL_1DAY; LEVEL_5MIN] TargetsSlot.init []
                               account_scenario3) 7
                  (fun l _ => eq_refl))).
Defined.

(** ** More on the constructor *)



(** X19: a trader that has just been built has the account service as
    its one listener and an empty slot, so its first
    [handle_targets_slot] calls the account service alone, opens nothing
    and closes every holding the account shows. *)
Theorem new_trader_first_tick
    (class_name : string) (now_pd_timestamp : timestamp)
    (init_selectors : option (list string) → string → list string →
                      option (list string) → timestamp → timestamp →
                      exn + list TargetSelector)
    (SimAccountService : string → timestamp → string → TradingLevel → AccountService)
    (sorted_levels : list TradingLevel → list TradingLevel)
    (a : Trader.args) (self : Trader.t) (ts : timestamp) :
  Trader.__init__ class_name now_pd_timestamp init_selectors SimAccountService
                  sorted_levels a = inr self →
  let calls := Trader.handle_targets_slot self ts in
  Trader.trading_signal_listeners self = [service_id (Trader.account_service self)]
  ∧ (∀ L, TargetsSlot.get_targets (Trader.targets_slot self) L = None)
  ∧ Forall (fun call => call.1 = service_id (Trader.account_service self)) calls
  ∧ signalled trading_signal_open_long (snd <$> calls) = ∅
  ∧ signalled trading_signal_close_long (snd <$> calls)
    = holdings (latest_account (Trader.account_service self)).
Proof.
  intros Hinit. cbv zeta.
  assert (Trader.trading_signal_listeners self = [service_id (Trader.account_service self)]
          ∧ Trader.targets_slot self = TargetsSlot.init) as [Hl Hslot].
  { unfold Trader.__init__ in Hinit.
    destruct (Trader.arg_start_timestamp a), (Trader.arg_end_timestamp a); try done.
    destruct (_ && _); [done |].
    destruct (init_selectors _ _ _ _ _ _); [done |].
    by simplify_eq. }
  assert (∀ L, TargetsSlot.get_targets (Trader.targets_slot self) L = None) as Hnone
    by (intros L; rewrite Hslot; apply lookup_empty).
  split; [done |]. split; [done |].
  unfold Trader.handle_targets_slot, Trader.send_trading_signals. rewrite Hl.
  rewrite dispatch_single. split.
  - apply Forall_forall. intros [l sig] Hcall.
    apply dispatch_calls in Hcall as [_ Hcall].
    by apply list_elem_of_singleton in Hcall.
  - apply empty_consensus_signals.
    apply (consensus_fold_all_empty _ (Trader.trading_level_desc self)); [| done].
    intros l _. unfold cached. by rewrite Hnone.
Qed.

(** The trader built with the hook of scenario 1. *)
Lemma new_trader_first_tick_witness :
  ∃ self,
    Trader.__init__ "mytrader" 3 init_selectors_scenario1 sim_account_service id
                    args_real_time_end_5 = inr self
    ∧ signalled trading_signal_open_long (snd <$> Trader.handle_targets_slot self 4) = ∅.
Proof.
  eexists. split; [reflexivity |].
  eapply (new_trader_first_tick "mytrader" 3 init_selectors_scenario1 sim_account_service
                                id args_real_time_end_5 _ 4).
  reflexivity.
Defined.

(** ** The loop of run *)

Section RunProperties.

Variable level_1day : TradingLevel.
Variable to_second : TradingLevel → Z.
Variable iterate_timestamps :
  string → string → timestamp → timestamp → TradingLevel → list timestamp.
Variable is_open_time : string → string → timestamp → bool.
Variable is_close_time : string → string → timestamp → bool.
Variable is_in_finished_timestamps : string → string → timestamp → TradingLevel → bool.
Variable get_one_day_trading_minutes : string → Z.
Variable count_from_timestamp : list Trader.event → TradingLevel → timestamp → Z → option float.
Variable latest_account_after : list Trader.event → Account.

#[local] Abbreviation pacing :=
  (Trader.pacing to_second is_in_finished_timestamps get_one_day_trading_minutes
                 count_from_timestamp).
#[local] Abbreviation refresh := (Trader.refresh_targets_slot is_in_finished_timestamps).
#[local] Abbreviation tick :=
  (Trader.tick level_1day to_second is_open_time is_close_time is_in_finished_timestamps
               get_one_day_trading_minutes count_from_timestamp latest_account_after).
#[local] Abbreviation run :=
  (Trader.run level_1day to_second iterate_timestamps is_open_time is_close_time
              is_in_finished_timestamps get_one_day_trading_minutes count_from_timestamp
              latest_account_after).
#[local] Abbreviation timestamps_of self exchange :=
  (iterate_timestamps (Trader.security_type self) exchange (Trader.start_timestamp self)
                      (Trader.end_timestamp self) (Trader.trading_level self)).
#[local] Abbreviation decision self timestamp lvl :=
  (Trader.decided_targets
     (LimitSelectorsComparator.make_decision (Trader.selectors_comparator self)
                                             timestamp lvl)).

(** *** The refresh of a tick *)

Lemma refresh_fold_entry (self : Trader.t) (exchange : string) (ts : timestamp)
    (L : TradingLevel) (levels : list TradingLevel) :
  ∀ slot,
    TargetsSlot.get_targets
      (fold_left
         (fun slot lvl =>
            if is_in_finished_timestamps (Trader.security_type self) exchange ts lvl
            then TargetsSlot.input_targets slot lvl (decision self ts lvl)
            else slot)
         levels slot) L
    = if bool_decide (L ∈ levels)
         && is_in_finished_timestamps (Trader.security_type self) exchange ts L
      then Some (decision self ts L)
      else TargetsSlot.get_targets slot L.
Proof using is_in_finished_timestamps.
  clear level_1day to_second iterate_timestamps is_open_time is_close_time
        get_one_day_trading_minutes count_from_timestamp latest_account_after.
  induction levels as [| l levels IH]; intros slot; cbn [fold_left]; [done |].
  rewrite IH. clear IH.
  destruct (decide (l = L)) as [-> | Hne].
  - rewrite (bool_decide_eq_true_2 (L ∈ L :: levels)) by left. simpl.
    destruct (is_in_finished_timestamps _ exchange ts L) eqn:Hfin.
    + rewrite andb_true_r.
      unfold TargetsSlot.get_targets, TargetsSlot.input_targets; simpl.
      rewrite lookup_insert_eq. by case_bool_decide.
    + by rewrite andb_false_r.
  - assert (bool_decide (L ∈ l :: levels) = bool_decide (L ∈ levels)) as ->.
    { apply bool_decide_ext. rewrite elem_of_cons. intuition congruence. }
    destruct (_ && _); [done |].
    destruct (is_in_finished_timestamps _ exchange ts l); [| done].
    unfold TargetsSlot.get_targets, TargetsSlot.input_targets; simpl.
    apply lookup_insert_ne. intros Hv. by apply Hne, value_inj.
Qed.

Lemma refresh_entry (self : Trader.t) (exchange : string) (ts : timestamp)
    (L : TradingLevel) :
  TargetsSlot.get_targets (Trader.targets_slot (refresh self exchange ts)) L
  = if bool_decide (L ∈ Trader.trading_level_asc self)
       && is_in_finished_timestamps (Trader.security_type self) exchange ts L
    then Some (decision self ts L)
    else TargetsSlot.get_targets (Trader.targets_slot self) L.
Proof using is_in_finished_timestamps.
  clear level_1day to_second iterate_timestamps is_open_time is_close_time
        get_one_day_trading_minutes count_from_timestamp latest_account_after.
  unfold Trader.refresh_targets_slot. simpl. apply refresh_fold_entry.
Qed.

(** X20: after the refresh of a tick, a configured level whose bar is
    finished at the timestamp holds the decision the comparator makes for
    it at that timestamp, read back by the consensus loop as the set of the
    decided ids; every other level holds what it held before. *)
Theorem refresh_targets_slot_entry (self : Trader.t) (exchange : string) (ts : timestamp)
    (L : TradingLevel) :
  let slot := Trader.targets_slot (refresh self exchange ts) in
  (L ∈ Trader.trading_level_asc self →
   is_in_finished_timestamps (Trader.security_type self) exchange ts L = true →
   TargetsSlot.get_targets slot L = Some (decision self ts L)
   ∧ cached slot L
     = list_to_set (security_ids
                      (LimitSelectorsComparator.make_decision
                         (Trader.selectors_comparator self) ts L)))
  ∧ (L ∉ Trader.trading_level_asc self
     ∨ is_in_finished_timestamps (Trader.security_type self) exchange ts L = false →
     TargetsSlot.get_targets slot L = TargetsSlot.get_targets (Trader.targets_slot self) L).
Proof using is_in_finished_timestamps.
  clear level_1day to_second iterate_timestamps is_open_time is_close_time
        get_one_day_trading_minutes count_from_timestamp latest_account_after.
  cbv zeta. unfold cached. rewrite refresh_entry. split.
  - intros HL Hfin. rewrite bool_decide_eq_true_2, Hfin by done. simpl.
    split; [done | apply decided_targets_as_set].
  - intros [HL | Hfin].
    + by rewrite bool_decide_eq_false_2.
    + by rewrite Hfin, andb_false_r.
Qed.

(** The refresh changes the slot and nothing else. *)
Lemma refresh_only_slot (self : Trader.t) (exchange : string) (ts : timestamp) :
  refresh self exchange ts
  = Trader.with_targets_slot self (Trader.targets_slot (refresh self exchange ts)).
Proof using is_in_finished_timestamps.
  clear level_1day to_second iterate_timestamps is_open_time is_close_time
        get_one_day_trading_minutes count_from_timestamp latest_account_after.
  reflexivity.
Qed.

Lemma refresh_fold_only_slot (exchange : string) (tss : list timestamp) :
  ∀ self,
    fold_left (fun s t => refresh s exchange t) tss self
    = Trader.with_targets_slot self
        (Trader.targets_slot (fold_left (fun s t => refresh s exchange t) tss self)).
Proof using is_in_finished_timestamps.
  clear level_1day to_second iterate_timestamps is_open_time is_close_time
        get_one_day_trading_minutes count_from_timestamp latest_account_after.
  induction tss as [| t tss IH]; intros self; cbn [fold_left]; [by destruct self |].
  rewrite IH at 1. reflexivity.
Qed.

(** *** One turn of the loop *)

Lemma tick_calls (exchange : string) (self : Trader.t) (trace : list Trader.event)
    (handled : option timestamp) (ts : timestamp) :
  ∃ calls,
    tick exchange (self, trace, handled) ts
    = (refresh self exchange ts,
       trace ++ pacing self exchange trace handled ts
         ++ (if Trader.session_boundary level_1day self
                  (is_open_time (Trader.security_type self) exchange ts)
             then [Trader.on_trading_open ts] else [])
         ++ ((fun call => Trader.on_trading_signal call.1 call.2) <$> calls)
         ++ (if Trader.session_boundary level_1day self
                  (is_close_time (Trader.security_type self) exchange ts)
             then [Trader.on_trading_close ts] else []),
       Some ts)
    ∧ ∃ account,
        calls = Trader.dispatch (Trader.trading_signal_listeners self)
                  (Trader.trading_signals (Trader.trading_level self) account ts
                                          (Trader.consensus self)).
Proof.
  unfold Trader.tick.
  change (Trader.session_boundary level_1day (refresh self exchange ts))
    with (Trader.session_boundary level_1day self).
  destruct (Trader.session_boundary level_1day self (is_open_time _ _ _)),
           (Trader.session_boundary level_1day self (is_close_time _ _ _));
    (eexists; split; [| eexists; reflexivity]);
    rewrite ?app_nil_r, <- ?app_assoc; reflexivity.
Qed.

Lemma loop_trader (exchange : string) (tss : list timestamp) :
  ∀ self trace handled,
    (fold_left (tick exchange) tss (self, trace, handled)).1.1
    = fold_left (fun s t => refresh s exchange t) tss self.
Proof.
  induction tss as [| t tss IH]; intros self trace handled; cbn [fold_left]; [done |].
  destruct (tick_calls exchange self trace handled t) as (calls & -> & _).
  apply IH.
Qed.

(** What [run] returns, spelled out. *)
Lemma run_unfold (self self' : Trader.t) (trace : list Trader.event) :
  run self = Some (self', trace) →
  ∃ exchange rest body handled,
    Trader.exchanges self = exchange :: rest
    ∧ fold_left (tick exchange) (timestamps_of self exchange) (self, [], None)
      = (self', body, handled)
    ∧ trace = body ++ Trader.on_finish self'.
Proof.
  unfold Trader.run. destruct (Trader.exchanges self) as [| exchange rest]; [done |].
  destruct (fold_left _ _ _) as [[s body] handled] eqn:Hloop.
  intros Hrun. simplify_eq. by exists exchange, rest, body, handled.
Qed.


(** *** What the loop keeps *)

Lemma loop_invariant (exchange : string)
    (I : list timestamp → Trader.loop_state → Prop) :
  (∀ done state t, I done state → I (done ++ [t]) (tick exchange state t)) →
  ∀ tss done state, I done state → I (done ++ tss) (fold_left (tick exchange) tss state).
Proof.
  intros Hstep. induction tss as [| t tss IH]; intros done state HI; cbn [fold_left].
  - by rewrite app_nil_r.
  - rewrite cons_middle, app_assoc. by apply IH, Hstep.
Qed.

Lemma pacing_events (self : Trader.t) (exchange : string) (trace : list Trader.event)
    (handled : option timestamp) (ts : timestamp) :
  pacing self exchange trace handled ts = []
  ∨ ∃ seconds moves,
      pacing self exchange trace handled ts = Trader.sleep seconds :: moves
      ∧ Forall (fun e => ∃ i t t', e = Trader.move_on i t t') moves
      ∧ Trader.real_time self = true ∧ is_Some handled.
Proof.
  unfold Trader.pacing. destruct handled as [handled |]; [| by left].
  destruct (Trader.real_time self); [| by left].
  destruct (count_from_timestamp _ _ _ _) as [waiting_seconds |]; [| by left].
  destruct (PrimFloat.ltb 10 waiting_seconds); [| by left].
  right. eexists _, _. split; [reflexivity |]. split; [| by eauto].
  induction (imap _ _) as [| [i selector] l IH]; simpl; [done |].
  apply Forall_app. split; [| done].
  destruct (is_in_finished_timestamps _ _ _ _); [| done].
  apply Forall_singleton. eauto.
Qed.

Lemma session_boundary_true (self : Trader.t) (at_boundary : bool) :
  Trader.session_boundary level_1day self at_boundary = true
  ↔ Trader.trading_level self = level_1day ∨ at_boundary = true.
Proof.
  unfold Trader.session_boundary. case_bool_decide; simpl; [naive_solver |].
  destruct at_boundary; naive_solver.
Qed.

Lemma loop_only_slot (self : Trader.t) (exchange : string) (tss : list timestamp)
    (trace : list Trader.event) (handled : option timestamp) :
  (fold_left (tick exchange) tss (self, trace, handled)).1.1
  = Trader.with_targets_slot self
      (Trader.targets_slot (fold_left (tick exchange) tss (self, trace, handled)).1.1).
Proof. rewrite loop_trader. apply refresh_fold_only_slot. Qed.

(** X21: [run] changes the slot of the trader and no other attribute:
    listeners, levels, selectors and comparator are those it started
    with. *)
Theorem run_changes_only_slot (self self' : Trader.t) (trace : list Trader.event) :
  run self = Some (self', trace) →
  self' = Trader.with_targets_slot self (Trader.targets_slot self').
Proof.
  intros Hrun. apply run_unfold in Hrun as (exchange & rest & body & handled & _ & Hloop & _).
  pose proof (loop_only_slot self exchange (timestamps_of self exchange) [] None) as Honly.
  by rewrite Hloop in Honly.
Qed.

Lemma refresh_fold_entry_last (self : Trader.t) (exchange : string) (L : TradingLevel)
    (tss : list timestamp) :
  L ∈ Trader.trading_level_asc self →
  TargetsSlot.get_targets
    (Trader.targets_slot (fold_left (fun s t => refresh s exchange t) tss self)) L
  = match last (filter (fun t => is_in_finished_timestamps (Trader.security_type self)
                                   exchange t L = true) tss) with
    | Some t => Some (decision self t L)
    | None => TargetsSlot.get_targets (Trader.targets_slot self) L
    end.
Proof using is_in_finished_timestamps.
  clear level_1day to_second iterate_timestamps is_open_time is_close_time
        get_one_day_trading_minutes count_from_timestamp latest_account_after.
  intros HL. induction tss as [| t tss IH] using rev_ind; [done |].
  rewrite fold_left_app. cbn [fold_left]. rewrite refresh_entry.
  rewrite (refresh_fold_only_slot exchange tss self). simpl.
  rewrite bool_decide_eq_true_2 by done. simpl.
  rewrite filter_app, last_app.
  destruct (is_in_finished_timestamps _ exchange t L) eqn:Hfin.
  - by rewrite filter_cons_True.
  - rewrite filter_cons_False by congruence. simpl.
    rewrite <- IH. by rewrite (refresh_fold_only_slot exchange tss self) at 2.
Qed.

(** X22: when [run] returns, the entry of a configured level is the
    decision made at the last timestamp of the iteration at which the
    level's bar was finished: an entry stays until the next finished bar
    of its level.  A level with no finished bar keeps its entry. *)
Theorem run_slot_entry (self self' : Trader.t) (trace : list Trader.event)
    (exchange : string) (rest : list string) (L : TradingLevel) :
  run self = Some (self', trace) →
  Trader.exchanges self = exchange :: rest →
  L ∈ Trader.trading_level_asc self →
  TargetsSlot.get_targets (Trader.targets_slot self') L
  = match last (filter (fun t => is_in_finished_timestamps (Trader.security_type self)
                                   exchange t L = true)
                       (timestamps_of self exchange)) with
    | Some t => Some (decision self t L)
    | None => TargetsSlot.get_targets (Trader.targets_slot self) L
    end.
Proof.
  intros Hrun Hex HL.
  apply run_unfold in Hrun as (exchange' & rest' & body & handled & Hex' & Hloop & _).
  rewrite Hex in Hex'. simplify_eq.
  rewrite <- (refresh_fold_entry_last self exchange' L _ HL).
  rewrite <- (loop_trader exchange' _ self [] None). by rewrite Hloop.
Qed.

(** *** The calls of a run *)

#[local] Abbreviation not_chart :=
  (fun e => match e with
            | Trader.draw_account_details _ | Trader.draw_order_signals _ => False
            | _ => True
            end).
#[local] Abbreviation sleeps trace := (length (List.filter is_sleep trace)).
#[local] Abbreviation signal_events calls :=
  ((fun call : Listener * TradingSignal.t => Trader.on_trading_signal call.1 call.2)
     <$> calls).

Ltac tick_step exchange t :=
  let s := fresh "s" in
  let tr := fresh "tr" in
  let h := fresh "h" in
  intros done [[s tr] h] t;
  let calls := fresh "calls" in
  let account := fresh "account" in
  let Hcalls := fresh "Hcalls" in
  destruct (tick_calls exchange s tr h t) as (calls & -> & account & Hcalls).

Lemma loop_no_chart (exchange : string) (tss : list timestamp) (self : Trader.t) :
  Forall not_chart (fold_left (tick exchange) tss (self, [], None)).1.2.
Proof.
  apply (fun Hstep =>
           loop_invariant exchange (fun _ state => Forall not_chart state.1.2)
                          Hstep tss [] (self, [], None)); [| done].
  tick_step exchange t. simpl. intros HI.
  repeat (apply Forall_app; split); try done.
  - destruct (pacing_events s exchange tr h t) as [-> | (sec & moves & -> & Hmoves & _)];
      [done |].
    apply Forall_cons. split; [done |].
    eapply Forall_impl; [exact Hmoves |]. by intros e (i & t1 & t2 & ->).
  - by destruct (Trader.session_boundary _ _ _); [apply Forall_singleton |].
  - by apply Forall_fmap, Forall_forall.
  - by destruct (Trader.session_boundary _ _ _); [apply Forall_singleton |].
Qed.

(** X23: when [run] returns, its last two calls are the two chart
    functions of [on_finish], [draw_account_details] and then
    [draw_order_signals], with the trader's name, and no chart is drawn
    earlier. *)
Theorem run_ends_with_on_finish (self self' : Trader.t) (trace : list Trader.event) :
  run self = Some (self', trace) →
  ∃ body, trace = body ++ [Trader.draw_account_details (Trader.trader_name self);
                           Trader.draw_order_signals (Trader.trader_name self)]
          ∧ Forall not_chart body.
Proof.
  intros Hrun.
  apply run_unfold in Hrun as (exchange & rest & body & handled & _ & Hloop & ->).
  pose proof (loop_only_slot self exchange (timestamps_of self exchange) [] None) as Hself.
  rewrite Hloop in Hself. simpl in Hself.
  exists body. split; [by rewrite Hself |].
  pose proof (loop_no_chart exchange (timestamps_of self exchange) self) as Hbody.
  by rewrite Hloop in Hbody.
Qed.

(** X24: outside real-time mode [run] never sleeps and never moves a
    selector on. *)
Theorem backtest_never_paces (self self' : Trader.t) (trace : list Trader.event) :
  Trader.real_time self = false →
  run self = Some (self', trace) →
  Forall (fun e => is_pacing e = false) trace.
Proof.
  intros Hrt Hrun.
  apply run_unfold in Hrun as (exchange & rest & body & handled & _ & Hloop & ->).
  apply Forall_app. split; [| by repeat constructor].
  assert (Trader.real_time (fold_left (tick exchange) (timestamps_of self exchange)
                                      (self, [], None)).1.1 = false
          ∧ Forall (fun e => is_pacing e = false)
                   (fold_left (tick exchange) (timestamps_of self exchange)
                              (self, [], None)).1.2) as [_ Hbody].
  { apply (fun Hstep =>
             loop_invariant exchange
               (fun _ state => Trader.real_time state.1.1 = false
                               ∧ Forall (fun e => is_pacing e = false) state.1.2)
               Hstep _ [] (self, [], None)); [| done].
    tick_step exchange t. simpl. intros [Hs HI]. split; [done |].
    repeat (apply Forall_app; split); try done.
    - destruct (pacing_events s exchange tr h t) as [-> | (? & ? & _ & _ & Hreal & _)];
        [done | congruence].
    - by destruct (Trader.session_boundary _ _ _); [apply Forall_singleton |].
    - by apply Forall_fmap, Forall_forall.
    - by destruct (Trader.session_boundary _ _ _); [apply Forall_singleton |]. }
  by rewrite Hloop in Hbody.
Qed.

Lemma sleeps_app (l1 l2 : list Trader.event) :
  sleeps (l1 ++ l2) = (sleeps l1 + sleeps l2)%nat.
Proof. by rewrite List.filter_app, length_app. Qed.

Lemma sleeps_signal_events (calls : list (Listener * TradingSignal.t)) :
  sleeps (signal_events calls) = 0%nat.
Proof. induction calls as [| c calls IH]; [done | exact IH]. Qed.

Lemma sleeps_pacing (self : Trader.t) (exchange : string) (trace : list Trader.event)
    (handled : option timestamp) (ts : timestamp) :
  (sleeps (pacing self exchange trace handled ts) ≤ 1)%nat
  ∧ (handled = None → sleeps (pacing self exchange trace handled ts) = 0%nat).
Proof.
  destruct (pacing_events self exchange trace handled ts)
    as [-> | (sec & moves & -> & Hmoves & _ & Hh)].
  - simpl. split; [lia | done].
  - assert (sleeps moves = 0%nat) as Hm.
    { induction Hmoves as [| e moves (i & t1 & t2 & ->) _ IH]; [done | exact IH]. }
    simpl. rewrite Hm. split; [lia |]. intros ->. by destruct Hh.
Qed.

Lemma run_sleeps_total (self self' : Trader.t) (trace : list Trader.event)
    (exchange : string) (rest : list string) :
  run self = Some (self', trace) →
  Trader.exchanges self = exchange :: rest →
  (sleeps trace ≤ length (timestamps_of self exchange) - 1)%nat.
Proof.
  intros Hrun Hex.
  apply run_unfold in Hrun as (exchange' & rest' & body & handled & Hex' & Hloop & ->).
  rewrite Hex in Hex'. simplify_eq.
  rewrite sleeps_app. simpl. rewrite Nat.add_0_r.
  pose proof (loop_invariant exchange'
    (fun done state =>
       match state.2 with
       | None => done = [] ∧ sleeps state.1.2 = 0%nat
       | Some _ => (sleeps state.1.2 + 1 ≤ length done)%nat
       end)) as Hinv.
  match type of Hinv with ?step → _ => assert step as Hstep end.
  { tick_step exchange' t. simpl. intros HI.
    rewrite !sleeps_app, sleeps_signal_events, length_app. simpl.
    destruct (sleeps_pacing s exchange' tr h t) as [Hle Hfirst].
    assert (∀ (b : bool) e, is_sleep e = false →
              sleeps (if b then [e] else []) = 0%nat) as Hone
      by (intros [] e He; simpl; by rewrite ?He).
    rewrite !Hone by done.
    destruct h as [h |]; [lia |]. destruct HI as [-> ->]. rewrite Hfirst by done.
    simpl. lia. }
  specialize (Hinv Hstep (timestamps_of self exchange') [] (self, [], None)
                   (conj eq_refl eq_refl)).
  rewrite Hloop in Hinv. simpl in Hinv.
  destruct handled; [lia |]. destruct Hinv as [-> ->]. simpl. lia.
Qed.

(** X25: take any turn of the loop of [run], the one for the timestamp [t]
    that comes after the timestamps [done] of the iteration.  The calls of
    that turn hold at most one [time.sleep]; they hold none in the first
    turn, when no tick is handled yet; and a sleep is the first call of
    its turn.  Over [n] timestamps, [run] therefore sleeps at most [n - 1]
    times. *)
Theorem run_sleeps_between_ticks (self : Trader.t) (exchange : string)
    (rest : list string) (done : list timestamp) (t : timestamp)
    (later : list timestamp) :
  Trader.exchanges self = exchange :: rest →
  timestamps_of self exchange = done ++ t :: later →
  let before := fold_left (tick exchange) done (self, [], None) in
  (∃ turn,
     (tick exchange before t).1.2 = before.1.2 ++ turn
     ∧ (sleeps turn ≤ 1)%nat
     ∧ (done = [] → sleeps turn = 0%nat)
     ∧ (∀ e turn', turn = e :: turn' → sleeps turn' = 0%nat))
  ∧ ∀ self' trace, run self = Some (self', trace) →
      (sleeps trace ≤ length (timestamps_of self exchange) - 1)%nat.
Proof.
  intros Hex Htss. cbv zeta. split; [| intros self' trace Hrun; by eapply run_sleeps_total].
  destruct (fold_left (tick exchange) done (self, [], None)) as [[s tr] h] eqn:Hbefore.
  destruct (tick_calls exchange s tr h t) as (calls & -> & _). simpl.
  eexists. split; [reflexivity |].
  assert (∀ (b : bool) e, is_sleep e = false →
            sleeps (if b then [e] else []) = 0%nat) as Hone
    by (intros [] e He; simpl; by rewrite ?He).
  destruct (sleeps_pacing s exchange tr h t) as [Hle Hfirst].
  split; [| split].
  - rewrite !sleeps_app, sleeps_signal_events, !Hone by done. lia.
  - intros ->. simpl in Hbefore. simplify_eq.
    rewrite !sleeps_app, sleeps_signal_events, !Hone, Hfirst by done. lia.
  - intros e turn' Hturn.
    destruct (pacing_events s exchange tr h t)
      as [Hp | (sec & moves & Hp & Hmoves & _)]; rewrite Hp in Hturn.
    + assert (sleeps (e :: turn') = 0%nat) as Hall.
      { rewrite <- Hturn. simpl.
        rewrite !sleeps_app, sleeps_signal_events, !Hone by done. lia. }
      simpl in Hall. destruct (is_sleep e); simpl in Hall; lia.
    + simpl in Hturn. simplify_eq.
      rewrite !sleeps_app, sleeps_signal_events, !Hone by done.
      assert (sleeps moves = 0%nat) as ->; [| lia].
      clear Hle Hfirst Hp.
      induction Hmoves as [| e moves (i & t1 & t2 & ->) _ IH]; [done | exact IH].
Qed.

Lemma signals_of_app (l1 l2 : list Trader.event) :
  signals_of (l1 ++ l2) = signals_of l1 ++ signals_of l2.
Proof. unfold signals_of. apply flat_map_app. Qed.

Lemma signals_of_signal_events (calls : list (Listener * TradingSignal.t)) :
  signals_of (signal_events calls) = calls.
Proof.
  induction calls as [| [l sig] calls IH]; [done |]. csimpl. by rewrite IH.
Qed.

Lemma signals_of_pacing (self : Trader.t) (exchange : string) (trace : list Trader.event)
    (handled : option timestamp) (ts : timestamp) :
  signals_of (pacing self exchange trace handled ts) = [].
Proof.
  destruct (pacing_events self exchange trace handled ts)
    as [-> | (sec & moves & -> & Hmoves & _)]; [done |].
  simpl. induction Hmoves as [| e moves (i & t1 & t2 & ->) _ IH]; [done | exact IH].
Qed.

Lemma signal_timestamp (lvl : TradingLevel) (account : Account) (ts : timestamp)
    (selected : option (gset string)) (sig : TradingSignal.t) :
  sig ∈ Trader.trading_signals lvl account ts selected →
  TradingSignal.the_timestamp sig = ts.
Proof.
  rewrite trading_signals_shape. cbv zeta.
  rewrite elem_of_app, !list_elem_of_fmap. by intros [(id & -> & _) | (id & -> & _)].
Qed.

(** X26: every signal [run] hands out goes to a listener registered on
    the trader and is stamped with a timestamp of the iteration. *)
Theorem run_signals_to_registered_listeners
    (self self' : Trader.t) (trace : list Trader.event)
    (exchange : string) (rest : list string) :
  run self = Some (self', trace) →
  Trader.exchanges self = exchange :: rest →
  Forall (fun call => call.1 ∈ Trader.trading_signal_listeners self
                      ∧ TradingSignal.the_timestamp call.2 ∈ timestamps_of self exchange)
         (signals_of trace).
Proof.
  intros Hrun Hex.
  apply run_unfold in Hrun as (exchange' & rest' & body & handled & Hex' & Hloop & ->).
  rewrite Hex in Hex'. simplify_eq.
  rewrite signals_of_app. simpl. rewrite app_nil_r.
  pose proof (loop_invariant exchange'
    (fun done state =>
       Trader.trading_signal_listeners state.1.1 = Trader.trading_signal_listeners self
       ∧ Forall (fun call => call.1 ∈ Trader.trading_signal_listeners self
                             ∧ TradingSignal.the_timestamp call.2 ∈ done)
                (signals_of state.1.2))) as Hinv.
  match type of Hinv with ?step → _ => assert step as Hstep end.
  { tick_step exchange' t. simpl. intros [Hl HI]. split; [done |].
    rewrite !signals_of_app, signals_of_pacing, signals_of_signal_events. simpl.
    assert (∀ (b : bool) e, signals_of [e] = [] →
              signals_of (if b then [e] else []) = []) as Hone by (by intros []).
    rewrite !Hone, app_nil_r by done.
    apply Forall_app. split.
    - eapply Forall_impl; [exact HI |]. intros call [? ?]. split; [done |].
      apply elem_of_app. by left.
    - apply Forall_forall. intros [l sig] Hcall. subst calls.
      apply dispatch_calls in Hcall as [Hsig Hlistener]. simpl. split; [congruence |].
      apply signal_timestamp in Hsig as ->. apply elem_of_app. right. by left. }
  specialize (Hinv Hstep (timestamps_of self exchange') [] (self, [], None)
                   (conj eq_refl (Forall_nil_2 _))).
  rewrite Hloop in Hinv. by destruct Hinv as [_ Hinv].
Qed.

(** X27: the session hooks: [on_trading_open] is called for a timestamp
    exactly when the timestamp is one of the iteration and the trader's
    level is the day level or [is_open_time] holds of it, and
    [on_trading_close] likewise with [is_close_time]; a day-level trader
    gets both calls at every tick. *)
Theorem run_session_hooks
    (self self' : Trader.t) (trace : list Trader.event)
    (exchange : string) (rest : list string) (t : timestamp) :
  run self = Some (self', trace) →
  Trader.exchanges self = exchange :: rest →
  (Trader.on_trading_open t ∈ trace
   ↔ t ∈ timestamps_of self exchange
     ∧ (Trader.trading_level self = level_1day
        ∨ is_open_time (Trader.security_type self) exchange t = true))
  ∧ (Trader.on_trading_close t ∈ trace
     ↔ t ∈ timestamps_of self exchange
       ∧ (Trader.trading_level self = level_1day
          ∨ is_close_time (Trader.security_type self) exchange t = true)).
Proof.
  intros Hrun Hex.
  apply run_unfold in Hrun as (exchange' & rest' & body & handled & Hex' & Hloop & ->).
  rewrite Hex in Hex'. simplify_eq.
  pose proof (loop_invariant exchange'
    (fun done state =>
       (Trader.trading_level state.1.1 = Trader.trading_level self
        ∧ Trader.security_type state.1.1 = Trader.security_type self)
       ∧ (Trader.on_trading_open t ∈ state.1.2
          ↔ t ∈ done
            ∧ (Trader.trading_level self = level_1day
               ∨ is_open_time (Trader.security_type self) exchange' t = true))
       ∧ (Trader.on_trading_close t ∈ state.1.2
          ↔ t ∈ done
            ∧ (Trader.trading_level self = level_1day
               ∨ is_close_time (Trader.security_type self) exchange' t = true)))) as Hinv.
  match type of Hinv with ?step → _ => assert step as Hstep end.
  { tick_step exchange' t0. simpl. intros [[Hlvl Hty] [Hopen Hclose]].
    split; [done |].
    assert (∀ e, not_chart e → is_pacing e = false →
              (∀ l sig, e ≠ Trader.on_trading_signal l sig) →
              e ∈ pacing s exchange' tr h t0 ++
                  (if Trader.session_boundary level_1day s
                        (is_open_time (Trader.security_type s) exchange' t0)
                   then [Trader.on_trading_open t0] else []) ++
                  signal_events calls ++
                  (if Trader.session_boundary level_1day s
                        (is_close_time (Trader.security_type s) exchange' t0)
                   then [Trader.on_trading_close t0] else [])
              ↔ (e = Trader.on_trading_open t0
                 ∧ Trader.session_boundary level_1day s
                     (is_open_time (Trader.security_type s) exchange' t0) = true)
                ∨ (e = Trader.on_trading_close t0
                   ∧ Trader.session_boundary level_1day s
                       (is_close_time (Trader.security_type s) exchange' t0) = true))
      as Hnew.
    { intros e _ Hpace Hsig. rewrite !elem_of_app.
      assert (e ∉ pacing s exchange' tr h t0) as Hp.
      { destruct (pacing_events s exchange' tr h t0)
          as [-> | (sec & moves & -> & Hmoves & _)]; [apply not_elem_of_nil |].
        intros [-> | He]%elem_of_cons; [done |].
        rewrite Forall_forall in Hmoves.
        destruct (Hmoves e He) as (i & t1 & t2 & ->). done. }
      assert (e ∉ signal_events calls) as Hs.
      { intros (c & -> & _)%list_elem_of_fmap. by eapply Hsig. }
      destruct (Trader.session_boundary level_1day s (is_open_time _ _ _)),
               (Trader.session_boundary level_1day s (is_close_time _ _ _));
        rewrite ?list_elem_of_singleton, ?elem_of_nil; intuition congruence. }
    split.
    - rewrite (elem_of_app tr), Hopen, Hnew by done.
      rewrite elem_of_app, list_elem_of_singleton, !session_boundary_true, Hlvl, Hty.
      split.
      + intros [[Hd Hc] | [[Heq Hc] | [Heq _]]]; [by auto | | done].
        injection Heq as ->. auto.
      + intros [[Hd | ->] Hc]; auto.
    - rewrite (elem_of_app tr), Hclose, Hnew by done.
      rewrite elem_of_app, list_elem_of_singleton, !session_boundary_true, Hlvl, Hty.
      split.
      + intros [[Hd Hc] | [[Heq _] | [Heq Hc]]]; [by auto | done |].
        injection Heq as ->. auto.
      + intros [[Hd | ->] Hc]; auto. }
  specialize (Hinv Hstep (timestamps_of self exchange') [] (self, [], None)).
  rewrite Hloop in Hinv. simpl in Hinv.
  destruct Hinv as [_ [Hopen Hclose]].
  { split; [done |]. split; (split; [by intros ?%elem_of_nil | by intros [?%elem_of_nil _]]). }
  rewrite !(elem_of_app body), Hopen, Hclose. unfold Trader.on_finish.
  rewrite !elem_of_cons, !elem_of_nil. split; intuition congruence.
Qed.

End RunProperties.

(** *** The run of the day-level trader over three days *)

(** The refresh of the first day writes the day-level decision [{B, A}]. *)
Lemma refresh_targets_slot_entry_witness :
  TargetsSlot.get_targets
    (Trader.targets_slot
       (Trader.refresh_targets_slot always_finished (day_trader false) "sh" 1)) LEVEL_1DAY
  = Some (Trader.decided_targets
            (LimitSelectorsComparator.make_decision
               (Trader.selectors_comparator (day_trader false)) 1 LEVEL_1DAY)).
Proof.
  apply (proj1 (refresh_targets_slot_entry always_finished (day_trader false) "sh" 1
                                           LEVEL_1DAY)).
  - apply (bool_decide_unpack _). vm_compute. exact I.
  - reflexivity.
Defined.

Lemma run_changes_only_slot_witness :
  ∃ self' trace,
    run_day_trader true = Some (self', trace)
    ∧ self' = Trader.with_targets_slot (day_trader true) (Trader.targets_slot self').
Proof.
  eexists _, _. split; [vm_compute; reflexivity |].
  eapply (run_changes_only_slot LEVEL_1DAY day_seconds three_days never_boundary
            never_boundary always_finished trading_minutes twenty_seconds account_fixed
            (day_trader true)).
  vm_compute. reflexivity.
Defined.

(** After the three days the day-level entry is the decision of day 3. *)
Lemma run_slot_entry_witness :
  ∃ self' trace,
    run_day_trader false = Some (self', trace)
    ∧ TargetsSlot.get_targets (Trader.targets_slot self') LEVEL_1DAY
      = Some (Trader.decided_targets
                (LimitSelectorsComparator.make_decision
                   (Trader.selectors_comparator (day_trader false)) 3 LEVEL_1DAY)).
Proof.
  eexists _, _. split; [vm_compute; reflexivity |].
  eapply (run_slot_entry LEVEL_1DAY day_seconds three_days never_boundary
            never_boundary always_finished trading_minutes twenty_seconds account_fixed
            (day_trader false) _ _ "sh" ["sz"] LEVEL_1DAY).
  - vm_compute. reflexivity.
  - reflexivity.
  - apply (bool_decide_unpack _). vm_compute. exact I.
Defined.

Lemma run_ends_with_on_finish_witness :
  ∃ self' trace body,
    run_day_trader false = Some (self', trace)
    ∧ trace = body ++ [Trader.draw_account_details "trader";
                       Trader.draw_order_signals "trader"].
Proof.
  eexists _, _.
  destruct (run_ends_with_on_finish LEVEL_1DAY day_seconds three_days
              never_boundary never_boundary always_finished trading_minutes
              twenty_seconds account_fixed (day_trader false) _ _
              ltac:(vm_compute; reflexivity)) as (body & Hbody & _).
  exists body. split; [vm_compute; reflexivity | exact Hbody].
Defined.

Lemma backtest_never_paces_witness :
  ∃ self' trace,
    run_day_trader false = Some (self', trace)
    ∧ Forall (fun e => is_pacing e = false) trace.
Proof.
  eexists _, _. split; [vm_compute; reflexivity |].
  eapply (backtest_never_paces LEVEL_1DAY day_seconds three_days never_boundary
            never_boundary always_finished trading_minutes twenty_seconds account_fixed
            (day_trader false)).
  - reflexivity.
  - vm_compute. reflexivity.
Defined.

(** In real-time mode, twenty seconds behind at every tick: the turn of
    day 2, after day 1, sleeps no more than once. *)
Lemma run_sleeps_between_ticks_witness :
  ∃ turn,
    (Trader.tick LEVEL_1DAY day_seconds never_boundary never_boundary always_finished
                 trading_minutes twenty_seconds account_fixed "sh"
                 (fold_left
                    (Trader.tick LEVEL_1DAY day_seconds never_boundary never_boundary
                                 always_finished trading_minutes twenty_seconds
                                 account_fixed "sh")
                    [1] (day_trader true, [], None)) 2).1.2
    = (fold_left
         (Trader.tick LEVEL_1DAY day_seconds never_boundary never_boundary
                      always_finished trading_minutes twenty_seconds account_fixed "sh")
         [1] (day_trader true, [], None)).1.2 ++ turn
    ∧ (length (List.filter is_sleep turn) ≤ 1)%nat.
Proof.
  destruct (run_sleeps_between_ticks LEVEL_1DAY day_seconds three_days never_boundary
              never_boundary always_finished trading_minutes twenty_seconds account_fixed
              (day_trader true) "sh" ["sz"] [1] 2 [3] eq_refl eq_refl)
    as [(turn & Hturn & Hle & _) _].
  exists turn. split; [exact Hturn | exact Hle].
Defined.

Lemma run_signals_to_registered_listeners_witness :
  ∃ self' trace,
    run_day_trader false = Some (self', trace)
    ∧ Forall (fun call => call.1 ∈ [0%nat]
                          ∧ TradingSignal.the_timestamp call.2 ∈ [1; 2; 3])
             (signals_of trace).
Proof.
  eexists _, _. split; [vm_compute; reflexivity |].
  eapply (run_signals_to_registered_listeners LEVEL_1DAY day_seconds three_days
            never_boundary never_boundary always_finished trading_minutes twenty_seconds
            account_fixed (day_trader false) _ _ "sh" ["sz"]).
  - vm_compute. reflexivity.
  - reflexivity.
Defined.

(** The day-level trader gets the open hook on day 2 although
    [is_open_time] never holds. *)
Lemma run_session_hooks_witness :
  ∃ self' trace,
    run_day_trader false = Some (self', trace)
    ∧ Trader.on_trading_open 2 ∈ trace.
Proof.
  eexists _, _. split; [vm_compute; reflexivity |].
  eapply (proj1 (run_session_hooks LEVEL_1DAY day_seconds three_days
                   never_boundary never_boundary always_finished trading_minutes
                   twenty_seconds account_fixed (day_trader false) _ _ "sh" ["sz"] 2
                   ltac:(vm_compute; reflexivity) eq_refl)).
  split; [| by left].
  apply (bool_decide_unpack _). vm_compute. exact I.
Defined.
